(** * The build manifest [bricks/_common/manifest.py]

    The manifest is a short Python script evaluated by the firmware build
    tool.  It issues one [include] directive, lists [./modules] through
    [pathlib.Path.glob], and issues one [freeze_as_mpy] directive per match,
    printing two lines for each.

    The script is embedded as a computation in a small monad that carries the
    filesystem, collects the observable events in order, and may raise a
    Python exception.  The parts of [pathlib] and [fnmatch] the script goes
    through are embedded from CPython 3.11 ([Lib/pathlib.py],
    [Lib/fnmatch.py]) for the POSIX flavour.  The two directives [include]
    and [freeze_as_mpy] belong to the build tool: the model records each call
    with its arguments and takes the call to return.

    Strings are byte strings, as the operating system gives the entry names.
    Python decodes a name with the filesystem encoding (UTF-8, undecodable
    bytes kept as lone surrogates) and [print] encodes the line for standard
    output, here the text stream of a UTF-8 locale: encoding UTF-8, error
    handler [strict].  A line is then written exactly when its bytes are
    well-formed UTF-8; otherwise [print] raises [UnicodeEncodeError] and
    writes nothing. *)

From Stdlib Require Import String Ascii List Bool Arith ZArith Lia Permutation.
Import ListNotations.
Local Open Scope string_scope.
Local Open Scope list_scope.

(** ** Python strings *)

Module PyStr.

(** [s.split(sep)] for a one-character separator. *)
Fixpoint split (sep : ascii) (s : string) : list string :=
  match s with
  | EmptyString => [EmptyString]
  | String c s' =>
      if Ascii.eqb c sep then EmptyString :: split sep s'
      else match split sep s' with
           | [] => [String c EmptyString]
           | x :: xs => String c x :: xs
           end
  end.

(** [s.rfind(c)]: the index of the last occurrence of [c], or [-1].
    [i] is the index of the head of [s], [acc] the last occurrence so far. *)
Fixpoint rfind_from (c : ascii) (s : string) (i acc : Z) : Z :=
  match s with
  | EmptyString => acc
  | String x s' => rfind_from c s' (i + 1) (if Ascii.eqb x c then i else acc)
  end.

Definition rfind (c : ascii) (s : string) : Z := rfind_from c s 0 (-1).

(** The slice [s[:i]] for [0 <= i]. *)
Definition slice_to (i : Z) (s : string) : string := substring 0 (Z.to_nat i) s.

Definition len (s : string) : Z := Z.of_nat (String.length s).

(** [s.endswith(suf)]: some tail of [s] is [suf]. *)
Fixpoint endswith (s suf : string) : bool :=
  String.eqb s suf ||
  match s with
  | String _ s' => endswith s' suf
  | EmptyString => false
  end.

End PyStr.

(** ** Well-formed UTF-8

    The byte sequences the UTF-8 codec accepts, as an automaton over the
    bytes: one state between characters, and one state per kind of byte
    still expected inside a character (the second byte is restricted after
    [E0], [ED], [F0] and [F4], which excludes overlong forms, surrogates and
    code points above [10FFFF]). *)

Module Utf8.

Inductive state : Type :=
| Start
| Cont1
| Cont2
| Cont3
| AfterE0
| AfterED
| AfterF0
| AfterF4.

Definition in_range (lo hi n : nat) : bool := (lo <=? n)%nat && (n <=? hi)%nat.

Definition step (st : state) (b : ascii) : option state :=
  let n := nat_of_ascii b in
  match st with
  | Start =>
      if (n <? 128)%nat then Some Start
      else if in_range 194 223 n then Some Cont1
      else if (n =? 224)%nat then Some AfterE0
      else if (n =? 237)%nat then Some AfterED
      else if in_range 225 239 n then Some Cont2
      else if (n =? 240)%nat then Some AfterF0
      else if in_range 241 243 n then Some Cont3
      else if (n =? 244)%nat then Some AfterF4
      else None
  | Cont1 => if in_range 128 191 n then Some Start else None
  | Cont2 => if in_range 128 191 n then Some Cont1 else None
  | Cont3 => if in_range 128 191 n then Some Cont2 else None
  | AfterE0 => if in_range 160 191 n then Some Cont1 else None
  | AfterED => if in_range 128 159 n then Some Cont1 else None
  | AfterF0 => if in_range 144 191 n then Some Cont2 else None
  | AfterF4 => if in_range 128 143 n then Some Cont2 else None
  end.

Fixpoint run (st : state) (s : string) : option state :=
  match s with
  | EmptyString => Some st
  | String b s' =>
      match step st b with
      | Some st' => run st' s'
      | None => None
      end
  end.

Definition well_formed (s : string) : bool :=
  match run Start s with
  | Some Start => true
  | _ => false
  end.

End Utf8.

(** Whether standard output can encode the text [s]. *)
Definition stdout_encodes (s : string) : bool := Utf8.well_formed s.

(** ** [fnmatch.translate] and [re.fullmatch] on the translated pattern

    [translate] turns a shell pattern into a regular expression; for a
    pattern made of [*], [?] and plain characters the expression is a
    sequence of "any run", "any one character" and literal characters,
    matched against the whole name ([(?s:...)\Z]: the dot also matches a
    newline).  Bracket classes are not part of the model; the manifest's
    pattern has none. *)

Module Fnmatch.

Inductive tok : Type :=
| STAR
| ANY
| LIT (c : ascii).

(** Consecutive [*] are compressed into one. *)
Fixpoint translate (pat : string) : list tok :=
  match pat with
  | EmptyString => []
  | String c pat' =>
      if Ascii.eqb c "*" then
        match translate pat' with
        | STAR :: r => STAR :: r
        | r => STAR :: r
        end
      else if Ascii.eqb c "?" then ANY :: translate pat'
      else LIT c :: translate pat'
  end.

Fixpoint fullmatch (re : list tok) (s : string) {struct re} : bool :=
  match re with
  | [] => match s with EmptyString => true | _ => false end
  | LIT c :: re' =>
      match s with
      | String x s' => Ascii.eqb x c && fullmatch re' s'
      | EmptyString => false
      end
  | ANY :: re' =>
      match s with
      | String _ s' => fullmatch re' s'
      | EmptyString => false
      end
  | STAR :: re' =>
      (fix star (s : string) : bool :=
         fullmatch re' s ||
         match s with
         | String _ s' => star s'
         | EmptyString => false
         end) s
  end.

End Fnmatch.

(** ** Pure paths ([pathlib.PurePosixPath], relative paths)

    A relative path is its list of components, [_parts]. *)

Definition Path : Type := list string.

(** [_PosixFlavour.parse_parts] on one relative argument: split at the
    separator, drop empty components and ["."]. *)
Definition parse_parts (arg : string) : list string :=
  filter (fun x => negb (String.eqb x "") && negb (String.eqb x "."))
         (PyStr.split "/" arg).

(** [PurePath(arg)]. *)
Definition PurePath (arg : string) : Path := parse_parts arg.

(** [p.parts]. *)
Definition parts (p : Path) : list string := p.

(** [str(p)]: the components joined by the separator, ["."] when there is
    none. *)
Definition str (p : Path) : string :=
  match p with
  | [] => "."
  | _ => String.concat "/" p
  end.

(** [p.name]: the final component, if any. *)
Definition name (p : Path) : string := last p "".

(** [p.parent] of a relative path. *)
Definition parent (p : Path) : Path := removelast p.

(** [p.stem]: the final component, minus its last suffix. *)
Definition stem (p : Path) : string :=
  let nm := name p in
  let i := PyStr.rfind "." nm in
  if ((0 <? i) && (i <? PyStr.len nm - 1))%Z then PyStr.slice_to i nm else nm.

(** [p._make_child_relpath(part)]. *)
Definition _make_child_relpath (p : Path) (part : string) : Path := p ++ [part].

(** [POSIX compile_pattern]: [re.compile(fnmatch.translate(pat)).fullmatch]. *)
Definition compile_pattern (pat : string) : string -> bool :=
  Fnmatch.fullmatch (Fnmatch.translate pat).

(** [bool(p)] for a path object: the class defines neither [__bool__] nor
    [__len__], so every instance is true. *)
Definition truthy (p : Path) : bool := true.

(** The builtin [any] over the truth values of the items. *)
Definition any {A : Type} (truth : A -> bool) (l : list A) : bool :=
  existsb truth l.

(** ** The filesystem seen from the working directory *)

Inductive errno : Type :=
| ENOENT | ENOTDIR | EBADF | ELOOP | EACCES | EPERM | EIO | EMFILE.

(** An entry is a regular file with its content or a directory with its
    entries in enumeration order.  Two more kinds stand for what the
    operating system may refuse: a directory that can be examined but whose
    listing fails with [e], and an entry that cannot even be examined. *)
#[warnings="-register-all"]
Inductive node : Type :=
| File (content : string)
| Dir (entries : list (string * node))
| NoList (e : errno)
| NoStat (e : errno).

Fixpoint find_entry (c : string) (es : list (string * node)) : option node :=
  match es with
  | [] => None
  | (k, n) :: es' => if String.eqb k c then Some n else find_entry c es'
  end.

(** Path resolution from the node [n]. *)
Fixpoint lookup (p : Path) (n : node) {struct p} : errno + node :=
  match p with
  | [] => inr n
  | c :: p' =>
      match n with
      | Dir es =>
          match find_entry c es with
          | Some n' => lookup p' n'
          | None => inl ENOENT
          end
      | File _ => inl ENOTDIR
      | NoList e => inl e
      | NoStat e => inl e
      end
  end.

Inductive st_mode : Type := S_IFREG | S_IFDIR.

Definition S_ISDIR (m : st_mode) : bool :=
  match m with S_IFDIR => true | S_IFREG => false end.

(** What [os.stat] answers for [p]. *)
Definition stat_of (cwd : node) (p : Path) : errno + st_mode :=
  match lookup p cwd with
  | inl e => inl e
  | inr (File _) => inr S_IFREG
  | inr (Dir _) => inr S_IFDIR
  | inr (NoList _) => inr S_IFDIR
  | inr (NoStat e) => inl e
  end.

(** What [os.scandir] answers for [p]: the names of the entries. *)
Definition scandir_of (cwd : node) (p : Path) : errno + list string :=
  match lookup p cwd with
  | inl e => inl e
  | inr (File _) => inl ENOTDIR
  | inr (Dir es) => inr (map fst es)
  | inr (NoList e) => inl e
  | inr (NoStat e) => inl e
  end.

(** ** Events, exceptions and the monad of the script *)

Inductive event : Type :=
| SysStat (p : string)
| SysScandir (p : string)
| Stdout (line : string)
| CallInclude (manifest_path : string)
| CallFreezeAsMpy (path file : string).

(** [UnicodeEncodeError] is a subclass of [ValueError]; it carries the text
    that could not be encoded. *)
Inductive exn : Type :=
| ValueError (msg : string)
| UnicodeEncodeError (object : string)
| OSError (e : errno).

Inductive outcome (A : Type) : Type :=
| Ret (a : A)
| Raise (x : exn).
Arguments Ret {A} a.
Arguments Raise {A} x.

(** A computation reads the filesystem and gives its outcome, the events
    it produced in order, and the filesystem it leaves. *)
Definition M (A : Type) : Type := node -> outcome A * list event * node.

Definition ret {A : Type} (a : A) : M A := fun fs => (Ret a, [], fs).

Definition raise {A : Type} (x : exn) : M A := fun fs => (Raise x, [], fs).

Definition bind {A B : Type} (m : M A) (k : A -> M B) : M B :=
  fun fs =>
    match m fs with
    | (Ret a, t1, fs1) =>
        match k a fs1 with
        | (r, t2, fs2) => (r, t1 ++ t2, fs2)
        end
    | (Raise x, t1, fs1) => (Raise x, t1, fs1)
    end.

(** [try: m  except ... as x: h x]; a handler that does not apply re-raises. *)
Definition try_except {A : Type} (m : M A) (h : exn -> M A) : M A :=
  fun fs =>
    match m fs with
    | (Ret a, t1, fs1) => (Ret a, t1, fs1)
    | (Raise x, t1, fs1) =>
        match h x fs1 with
        | (r, t2, fs2) => (r, t1 ++ t2, fs2)
        end
    end.

Definition emit (ev : event) : M unit := fun fs => (Ret tt, [ev], fs).

Declare Scope py_scope.
Delimit Scope py_scope with py.
Notation "x <- m ;; k" := (bind m (fun x => k))
  (at level 100, m at next level, right associativity) : py_scope.
Notation "' pat <- m ;; k" := (bind m (fun x => match x with pat => k end))
  (at level 100, pat pattern, m at next level, right associativity) : py_scope.
Notation "m ;; k" := (bind m (fun _ => k))
  (at level 100, right associativity) : py_scope.
Local Open Scope py_scope.

(** [for x in l: body x]. *)
Fixpoint for_in {A : Type} (l : list A) (body : A -> M unit) : M unit :=
  match l with
  | [] => ret tt
  | x :: l' => body x ;; for_in l' body
  end.

Definition outcome_of {A : Type} (r : outcome A * list event * node) : outcome A :=
  fst (fst r).
Definition trace_of {A : Type} (r : outcome A * list event * node) : list event :=
  snd (fst r).
Definition fs_of {A : Type} (r : outcome A * list event * node) : node :=
  snd r.

(** ** Operating system calls and the builtins *)

Definition os_stat (p : Path) : M st_mode :=
  emit (SysStat (str p)) ;;
  fun fs =>
    match stat_of fs p with
    | inr m => ret m fs
    | inl e => raise (OSError e) fs
    end.

Definition os_scandir (p : Path) : M (list string) :=
  emit (SysScandir (str p)) ;;
  fun fs =>
    match scandir_of fs p with
    | inr names => ret names fs
    | inl e => raise (OSError e) fs
    end.

(** [print(line)]: the line is encoded as a whole before anything is
    written. *)
Definition print (line : string) : M unit :=
  if stdout_encodes line then emit (Stdout line)
  else raise (UnicodeEncodeError line).

(** The build tool's directives. *)
Definition include (manifest_path : string) : M unit :=
  emit (CallInclude manifest_path).

Definition freeze_as_mpy (path file : string) : M unit :=
  emit (CallFreezeAsMpy path file).

(** [a, b = t]: unpacking a tuple into two targets. *)
Definition unpack2 (t : list string) : M (string * string) :=
  match t with
  | [a; b] => ret (a, b)
  | [] => raise (ValueError "not enough values to unpack (expected 2, got 0)")
  | [_] => raise (ValueError "not enough values to unpack (expected 2, got 1)")
  | _ => raise (ValueError "too many values to unpack (expected 2)")
  end.

(** ** [pathlib.Path]: [is_dir] and [glob] *)

Definition _ignore_error (e : errno) : bool :=
  match e with
  | ENOENT | ENOTDIR | EBADF | ELOOP => true
  | _ => false
  end.

(** [PermissionError] is the [OSError] of [EACCES] and [EPERM]. *)
Definition is_PermissionError (x : exn) : bool :=
  match x with
  | OSError EACCES | OSError EPERM => true
  | _ => false
  end.

Definition is_dir (p : Path) : M bool :=
  try_except
    (m <- os_stat p ;; ret (S_ISDIR m))
    (fun x =>
       match x with
       | OSError e => if _ignore_error e then ret false else raise x
       | ValueError _ | UnicodeEncodeError _ => ret false
       end).

(** [_WildcardSelector._select_from] with [dironly = False] and the
    terminating selector as successor: every entry whose name matches gives
    the child path. *)
Definition _select_from (matches : string -> bool) (parent_path : Path)
  : M (list Path) :=
  try_except
    (entries <- os_scandir parent_path ;;
     ret (map (_make_child_relpath parent_path) (filter matches entries)))
    (fun x => if is_PermissionError x then ret [] else raise x).

Definition select_from (matches : string -> bool) (parent_path : Path)
  : M (list Path) :=
  d <- is_dir parent_path ;;
  if negb d then ret [] else _select_from matches parent_path.

(** [list(self.glob(pattern))] for a pattern of one wildcard component. *)
Definition glob (self : Path) (pattern : string) : M (list Path) :=
  select_from (compile_pattern pattern) self.

(** ** The manifest *)

(** The body of the loop, for one candidate [m]. *)
Definition register_module (m : Path) : M unit :=
  print ("INCLUDING " ++ str m ++ " as a module.") ;;
  '(path, file) <- unpack2 (parts m) ;;
  print ("Including " ++ stem m ++ " as a module.") ;;
  freeze_as_mpy path file.

(** The guarded loop over the candidates. *)
Definition freeze_modules (modules : list Path) : M unit :=
  if any truthy modules then for_in modules register_module else ret tt.

Definition manifest : M unit :=
  include "./modules/uasyncio" ;;
  modules <- glob (PurePath "./modules") "*.py" ;;
  freeze_modules modules.

(** The script as the refinement claim describes it: the guard removed and
    the loop run unconditionally. *)
Definition manifest_unguarded : M unit :=
  include "./modules/uasyncio" ;;
  modules <- glob (PurePath "./modules") "*.py" ;;
  for_in modules register_module.

(** ** Reading a trace *)

Definition is_freeze (ev : event) : bool :=
  match ev with CallFreezeAsMpy _ _ => true | _ => false end.

Definition is_include (ev : event) : bool :=
  match ev with CallInclude _ => true | _ => false end.

Definition is_call (ev : event) : bool := is_include ev || is_freeze ev.

Definition is_stdout (ev : event) : bool :=
  match ev with Stdout _ => true | _ => false end.

Definition is_sys (ev : event) : bool :=
  match ev with SysStat _ | SysScandir _ => true | _ => false end.

(** The calls to the build tool, in order. *)
Definition calls (t : list event) : list event := filter is_call t.

(** The events of one pass of the loop body over a candidate that unpacks. *)
Definition module_events (m : Path) : list event :=
  [ Stdout ("INCLUDING " ++ str m ++ " as a module.");
    Stdout ("Including " ++ stem m ++ " as a module.");
    CallFreezeAsMpy (name (parent m)) (name m) ].

Definition two_parts (m : Path) : Prop := List.length (parts m) = 2%nat.

(** The scan of the manifest. *)
Definition scan : M (list Path) := glob (PurePath "./modules") "*.py".

Definition modules_dir : Path := ["modules"].

(** The names the pattern of the manifest is meant for. *)
Definition is_py (n : string) : bool := PyStr.endswith n ".py".

(** The path the scan builds for the entry [n] of [./modules]. *)
Definition candidate (n : string) : Path := ["modules"; n].

(** The two lines printed for a candidate. *)
Definition diagnostics (m : Path) : list event :=
  [ Stdout ("INCLUDING " ++ str m ++ " as a module.");
    Stdout ("Including " ++ stem m ++ " as a module.") ].

(** ** Two statements that the code does not satisfy as written *)

(** Over a filesystem without [./modules] the scan raises an error, and the
    run ends with it. *)
Definition missing_modules_aborts (cwd : node) : Prop :=
  lookup modules_dir cwd = inl ENOENT ->
  exists x, outcome_of (scan cwd) = Raise x /\ outcome_of (manifest cwd) = Raise x.

(** Every registered candidate is a regular file directly inside
    [./modules]. *)
Definition registered_are_files (cwd : node) : Prop :=
  forall p f,
    In (CallFreezeAsMpy p f) (trace_of (manifest cwd)) ->
    p = "modules" /\ exists c, lookup [p; f] cwd = inr (File c).

(** ** Some filesystems *)

Definition a_b_tree : node :=
  Dir [("modules", Dir [("a.py", File "import a"); ("b.py", File "import b")])].

Definition mixed_tree : node :=
  Dir [("README.md", File "readme");
       ("modules", Dir [("hub.py", File "x = 1");
                        ("notes.txt", File "todo");
                        ("uasyncio", Dir [("core.py", File "y = 2")]);
                        ("motor.py", File "z = 3")])].

Definition no_match_tree : node :=
  Dir [("modules", Dir [("uasyncio", Dir [("core.py", File "y = 2")]);
                        ("notes.txt", File "todo")])].

Definition empty_tree : node := Dir [].

Definition unreadable_tree : node := Dir [("modules", NoList EIO)].

Definition package_tree : node :=
  Dir [("modules", Dir [("pkg.py", Dir [("inner.py", File "x = 1")]);
                        ("hub.py", File "y = 2")])].

Definition other_contents_tree : node :=
  Dir [("modules", Dir [("a.py", File "raise SystemExit");
                        ("b.py", Dir [("deep.py", File "")])]);
       ("build", Dir [("firmware.bin", File "0000")])].

(** ** Well-formed entry names *)

(** A name holds no separator. *)
Fixpoint no_sep (c : string) : Prop :=
  match c with
  | EmptyString => True
  | String x c' => x <> "/"%char /\ no_sep c'
  end.

(** A path component as the operating system gives it: not empty, not
    ["."], without separator. *)
Definition component (c : string) : Prop :=
  c <> "" /\ c <> "." /\ no_sep c.

Definition notes_tree : node :=
  Dir [("modules", Dir [("notes.txt", File "todo"); ("a.py", File "import a");
                        ("uasyncio", Dir []); ("b.py", File "import b")])].

Definition modules_file_tree : node := Dir [("modules", File "not a directory")].

Definition joined_tree : node :=
  Dir [("modules",
        Dir [("a.py", File "import a"); ("b.py", File "import b");
             ("pkg.py", Dir [("inner.py", File "x = 1")]); ("hub.py", File "y = 2")])].

(** ** What the loop prints and how it ends *)

(** The first line of a candidate can be printed. *)
Definition printable (m : Path) : bool :=
  stdout_encodes ("INCLUDING " ++ str m ++ " as a module.").

(** The longest prefix of [l] whose items all satisfy [f]. *)
Fixpoint take_while {A : Type} (f : A -> bool) (l : list A) : list A :=
  match l with
  | [] => []
  | x :: l' => if f x then x :: take_while f l' else []
  end.

(** The outcome of the loop over candidates that unpack: the error of the
    first line that cannot be printed, if there is one. *)
Fixpoint loop_outcome (ms : list Path) : outcome unit :=
  match ms with
  | [] => Ret tt
  | m :: ms' =>
      if printable m then loop_outcome ms'
      else Raise (UnicodeEncodeError ("INCLUDING " ++ str m ++ " as a module."))
  end.

(** The byte string of the given byte values. *)
Definition bytes (l : list nat) : string :=
  string_of_list_ascii (map ascii_of_nat l).

(** A name that is not well-formed UTF-8: the byte [FF], then [".py"]. *)
Definition ff_py : string := String (ascii_of_nat 255) ".py".

Definition ff_tree : node :=
  Dir [("modules", Dir [("a.py", File "import a"); (ff_py, File "x = 1");
                        ("b.py", File "import b")])].

(** ** Two more statements that the code does not satisfy as written *)

(** One [freeze_as_mpy] call per matching entry and one include. *)
Definition one_call_per_match (cwd : node) : Prop :=
  forall es,
    lookup modules_dir cwd = inr (Dir es) ->
    List.length (filter is_freeze (trace_of (manifest cwd))) =
      List.length (filter (compile_pattern "*.py") (map fst es)) /\
    filter is_include (trace_of (manifest cwd)) = [CallInclude "./modules/uasyncio"].

(** Two lines are printed for every scanned candidate. *)
Definition two_lines_per_candidate (cwd : node) : Prop :=
  forall ms,
    outcome_of (scan cwd) = Ret ms ->
    filter is_stdout (trace_of (manifest cwd)) = flat_map diagnostics ms.

(** ** Proof steps used more than once *)

(** Induction over a list of candidates whose events are filtered or
    rewritten. *)
Ltac by_candidates ms :=
  let IH := fresh "IH" in
  induction ms as [|? ms IH]; simpl;
  [reflexivity | try rewrite IH; try exact IH; reflexivity].

(** Case analysis on the two answers of the operating system, following the
    branches of [is_dir] and [_select_from]. *)
Ltac os_answers cwd :=
  destruct (stat_of cwd modules_dir) as [?e|[|]];
  [ destruct (_ignore_error _)
  |
  | destruct (scandir_of cwd modules_dir) as [?e|?names] eqn:?Hd;
    [ destruct (is_PermissionError _) | ] ].

(** * Small runs *)

Example PurePath_modules : PurePath "./modules" = ["modules"].
Proof. reflexivity. Qed.

Example stem_a_py : stem ["modules"; "a.py"] = "a".
Proof. reflexivity. Qed.

Example stem_dot_py : stem ["modules"; ".py"] = ".py".
Proof. reflexivity. Qed.

Example stem_tar_gz : stem ["modules"; "x.tar.py"] = "x.tar".
Proof. reflexivity. Qed.

Example match_a_py : compile_pattern "*.py" "a.py" = true.
Proof. reflexivity. Qed.

Example match_pyc : compile_pattern "*.py" "a.pyc" = false.
Proof. reflexivity. Qed.

Example match_hidden : compile_pattern "*.py" ".py" = true.
Proof. reflexivity. Qed.

Example encodes_two_bytes : stdout_encodes (bytes [195; 169]) = true.
Proof. reflexivity. Qed.

Example encodes_last_code_point : stdout_encodes (bytes [244; 143; 191; 191]) = true.
Proof. reflexivity. Qed.

Example rejects_lone_ff : stdout_encodes ff_py = false.
Proof. reflexivity. Qed.

Example rejects_overlong : stdout_encodes (bytes [192; 128]) = false.
Proof. reflexivity. Qed.

Example rejects_surrogate : stdout_encodes (bytes [237; 160; 128]) = false.
Proof. reflexivity. Qed.

Example rejects_beyond_range : stdout_encodes (bytes [244; 144; 128; 128]) = false.
Proof. reflexivity. Qed.

Example rejects_truncated : stdout_encodes (bytes [194]) = false.
Proof. reflexivity. Qed.

Example print_fails :
  print ("INCLUDING modules/" ++ ff_py ++ " as a module.") empty_tree =
  (Raise (UnicodeEncodeError ("INCLUDING modules/" ++ ff_py ++ " as a module.")),
   [], empty_tree).
Proof. reflexivity. Qed.

Example parse_pattern : parse_parts "*.py" = ["*.py"].
Proof. reflexivity. Qed.

Example run_a_b :
  manifest a_b_tree =
  (Ret tt,
   [CallInclude "./modules/uasyncio"; SysStat "modules"; SysScandir "modules";
    Stdout "INCLUDING modules/a.py as a module."; Stdout "Including a as a module.";
    CallFreezeAsMpy "modules" "a.py";
    Stdout "INCLUDING modules/b.py as a module."; Stdout "Including b as a module.";
    CallFreezeAsMpy "modules" "b.py"],
   a_b_tree).
Proof. reflexivity. Qed.

Example run_denied :
  manifest (Dir [("modules", NoList EACCES)]) =
  (Ret tt, [CallInclude "./modules/uasyncio"; SysStat "modules"; SysScandir "modules"],
   Dir [("modules", NoList EACCES)]).
Proof. reflexivity. Qed.

Example run_modules_is_file :
  manifest (Dir [("modules", File "")]) =
  (Ret tt, [CallInclude "./modules/uasyncio"; SysStat "modules"],
   Dir [("modules", File "")]).
Proof. reflexivity. Qed.

Example run_stat_fails :
  manifest (Dir [("modules", NoStat EACCES)]) =
  (Raise (OSError EACCES), [CallInclude "./modules/uasyncio"; SysStat "modules"],
   Dir [("modules", NoStat EACCES)]).
Proof. reflexivity. Qed.

Example unpack_three :
  register_module ["modules"; "sub"; "x.py"] empty_tree =
  (Raise (ValueError "too many values to unpack (expected 2)"),
   [Stdout "INCLUDING modules/sub/x.py as a module."], empty_tree).
Proof. reflexivity. Qed.

Example unpack_one :
  register_module ["x.py"] empty_tree =
  (Raise (ValueError "not enough values to unpack (expected 2, got 1)"),
   [Stdout "INCLUDING x.py as a module."], empty_tree).
Proof. reflexivity. Qed.

(** * Facts about strings and patterns *)

Lemma endswith_unfold s suf :
  PyStr.endswith s suf =
  String.eqb s suf ||
  match s with String _ s' => PyStr.endswith s' suf | EmptyString => false end.
Proof. destruct s; reflexivity. Qed.

Lemma endswith_spec s suf :
  PyStr.endswith s suf = true <-> exists pre, s = (pre ++ suf)%string.
Proof.
  split.
  - induction s as [|c s IH]; rewrite endswith_unfold; intros H;
      apply orb_true_iff in H; destruct H as [H|H].
    + apply String.eqb_eq in H. exists "". now subst.
    + discriminate.
    + apply String.eqb_eq in H. exists "". now subst.
    + destruct (IH H) as [pre ->]. now exists (String c pre).
  - intros [pre ->]. induction pre as [|c pre IH].
    + simpl. rewrite endswith_unfold, String.eqb_refl. reflexivity.
    + rewrite endswith_unfold. simpl. rewrite IH. apply orb_true_r.
Qed.

(** The compiled pattern of the manifest accepts exactly the names that end
    with [".py"]. *)
Lemma compile_pattern_py s :
  compile_pattern "*.py" s = PyStr.endswith s ".py".
Proof.
  unfold compile_pattern. simpl Fnmatch.translate.
  assert (Hlit : forall x, Fnmatch.fullmatch [Fnmatch.LIT "."; Fnmatch.LIT "p"; Fnmatch.LIT "y"] x
                           = String.eqb x ".py").
  { intros x. destruct x as [|a [|b [|c [|d x]]]]; simpl; try reflexivity.
    all: destruct (Ascii.eqb a "."); simpl; try reflexivity.
    all: destruct (Ascii.eqb b "p"); simpl; try reflexivity.
    all: destruct (Ascii.eqb c "y"); simpl; reflexivity. }
  induction s as [|c s IH].
  - reflexivity.
  - rewrite endswith_unfold. rewrite <- IH.
    change (Fnmatch.fullmatch (Fnmatch.STAR :: ?re) (String c s))
      with (Fnmatch.fullmatch re (String c s) || Fnmatch.fullmatch (Fnmatch.STAR :: re) s).
    now rewrite Hlit.
Qed.

Lemma rfind_from_app c a b i acc :
  PyStr.rfind_from c (a ++ b)%string i acc =
  PyStr.rfind_from c b (i + PyStr.len a) (PyStr.rfind_from c a i acc).
Proof.
  revert i acc. induction a as [|x a IH]; intros i acc.
  - simpl. unfold PyStr.len. simpl. now rewrite Z.add_0_r.
  - simpl. rewrite IH. f_equal. unfold PyStr.len. simpl String.length. lia.
Qed.

Lemma substring_app_left a b :
  substring 0 (String.length a) (a ++ b)%string = a.
Proof.
  induction a as [|x a IH]; simpl.
  - now destruct b.
  - now rewrite IH.
Qed.

Lemma length_app a b :
  String.length (a ++ b)%string = (String.length a + String.length b)%nat.
Proof. induction a as [|x a IH]; simpl; [reflexivity | now rewrite IH]. Qed.

(** The stem of [base.py] is [base], for a non-empty [base]. *)
Lemma rfind_dot_py base :
  PyStr.rfind "." (base ++ ".py")%string = PyStr.len base.
Proof.
  unfold PyStr.rfind. rewrite rfind_from_app.
  generalize (PyStr.rfind_from "." base 0 (-1)). intros acc.
  rewrite Z.add_0_l. reflexivity.
Qed.

Lemma stem_py d base :
  base <> "" -> stem [d; (base ++ ".py")%string] = base.
Proof.
  intros Hne. unfold stem. cbn [name last].
  rewrite rfind_dot_py. unfold PyStr.len. rewrite length_app.
  simpl String.length.
  assert (0 < String.length base)%nat by (destruct base; [congruence | simpl; lia]).
  replace (0 <? Z.of_nat (String.length base))%Z with true
    by (symmetry; apply Z.ltb_lt; lia).
  replace (Z.of_nat (String.length base) <?
           Z.of_nat (String.length base + 3) - 1)%Z with true
    by (symmetry; apply Z.ltb_lt; lia).
  simpl. unfold PyStr.slice_to. rewrite Nat2Z.id.
  apply substring_app_left.
Qed.

(** * Facts about the encoding of lines *)

Lemma utf8_run_app st a b :
  Utf8.run st (a ++ b)%string =
  match Utf8.run st a with
  | Some st' => Utf8.run st' b
  | None => None
  end.
Proof.
  revert st. induction a as [|x a IH]; intros st; [reflexivity|].
  cbn [append Utf8.run]. destruct (Utf8.step st x); [apply IH | reflexivity].
Qed.

(** A byte below 128 is a character by itself: it is accepted between
    characters only. *)
Lemma utf8_step_ascii st c :
  (nat_of_ascii c < 128)%nat ->
  Utf8.step st c =
  match st with
  | Utf8.Start => Some Utf8.Start
  | _ => None
  end.
Proof.
  intros H. unfold Utf8.step, Utf8.in_range.
  assert (H128 : (nat_of_ascii c <? 128)%nat = true) by now apply Nat.ltb_lt.
  assert (Hlo : forall lo, (128 <= lo)%nat -> (lo <=? nat_of_ascii c)%nat = false)
    by (intros lo Hl; apply Nat.leb_gt; lia).
  destruct st; rewrite ?H128, ?Hlo by lia; reflexivity.
Qed.

Lemma encodes_app a b :
  stdout_encodes a = true ->
  stdout_encodes (a ++ b)%string = stdout_encodes b.
Proof.
  unfold stdout_encodes, Utf8.well_formed. rewrite utf8_run_app.
  destruct (Utf8.run Utf8.Start a) as [[]|]; try discriminate. reflexivity.
Qed.

(** A text splits at any byte below 128. *)
Lemma encodes_split a c b :
  (nat_of_ascii c < 128)%nat ->
  stdout_encodes (a ++ String c b)%string = stdout_encodes a && stdout_encodes b.
Proof.
  intros H. unfold stdout_encodes, Utf8.well_formed. rewrite utf8_run_app.
  destruct (Utf8.run Utf8.Start a) as [st|]; [|reflexivity].
  cbn [Utf8.run]. rewrite (utf8_step_ascii st c H). now destruct st.
Qed.

Lemma encodes_first_line x :
  stdout_encodes ("INCLUDING " ++ x ++ " as a module.") = stdout_encodes x.
Proof.
  rewrite encodes_app by reflexivity.
  change " as a module." with (String " " "as a module.").
  rewrite encodes_split by (cbn; lia).
  change (stdout_encodes "as a module.") with true. apply andb_true_r.
Qed.

Lemma encodes_second_line x :
  stdout_encodes ("Including " ++ x ++ " as a module.") = stdout_encodes x.
Proof.
  rewrite encodes_app by reflexivity.
  change " as a module." with (String " " "as a module.").
  rewrite encodes_split by (cbn; lia).
  change (stdout_encodes "as a module.") with true. apply andb_true_r.
Qed.

Lemma printable_str m : printable m = stdout_encodes (str m).
Proof. apply encodes_first_line. Qed.

Lemma printable_two d f :
  printable [d; f] = stdout_encodes d && stdout_encodes f.
Proof.
  rewrite printable_str.
  change (str [d; f]) with (d ++ String "/" f)%string.
  apply encodes_split. cbn; lia.
Qed.

Lemma printable_candidate n : printable (candidate n) = stdout_encodes n.
Proof. unfold candidate. rewrite printable_two. reflexivity. Qed.

(** Where [rfind] finds the character. *)
Lemma rfind_from_spec c s i acc :
  PyStr.rfind_from c s i acc = acc \/
  exists pre rest,
    s = (pre ++ String c rest)%string /\
    PyStr.rfind_from c s i acc = (i + PyStr.len pre)%Z.
Proof.
  revert i acc. induction s as [|x s IH]; intros i acc; [now left|].
  cbn [PyStr.rfind_from].
  destruct (IH (i + 1)%Z (if Ascii.eqb x c then i else acc))
    as [Hr | (pre & rest & -> & Hr)].
  - rewrite Hr. destruct (Ascii.eqb x c) eqn:Hx; [|now left].
    apply Ascii.eqb_eq in Hx. subst x. right. exists "", s.
    split; [reflexivity|]. unfold PyStr.len. simpl. lia.
  - right. exists (String x pre), rest. split; [reflexivity|].
    rewrite Hr. unfold PyStr.len. simpl String.length. lia.
Qed.

(** The stem of a name that can be encoded can be encoded: the name is cut
    at a full stop, which is a character by itself. *)
Lemma encodes_stem d f :
  stdout_encodes f = true -> stdout_encodes (stem [d; f]) = true.
Proof.
  intros Hf. unfold stem. cbn [name last].
  destruct ((0 <? PyStr.rfind "." f)%Z && (PyStr.rfind "." f <? PyStr.len f - 1)%Z)
    eqn:Hc; [|exact Hf].
  apply andb_true_iff in Hc. destruct Hc as [Hpos _]. apply Z.ltb_lt in Hpos.
  unfold PyStr.rfind in *.
  destruct (rfind_from_spec "." f 0 (-1)) as [Hr | (pre & rest & -> & Hr)].
  - rewrite Hr in Hpos. lia.
  - rewrite Hr. unfold PyStr.slice_to, PyStr.len.
    rewrite Z.add_0_l, Nat2Z.id, substring_app_left.
    rewrite encodes_split in Hf by (cbn; lia).
    now apply andb_true_iff in Hf.
Qed.

(** * Runs of the loop body and of the loop *)

Arguments stdout_encodes : simpl never.

Section Loop.

Variable fs : node.

Lemma two_parts_inv m : two_parts m -> exists d f, m = [d; f].
Proof.
  unfold two_parts, parts. destruct m as [|d [|f [|x m]]]; simpl; try discriminate.
  intros _. now exists d, f.
Qed.

Lemma print_ok line :
  stdout_encodes line = true -> print line fs = (Ret tt, [Stdout line], fs).
Proof. unfold print. now intros ->. Qed.

Lemma print_fail line :
  stdout_encodes line = false ->
  print line fs = (Raise (UnicodeEncodeError line), [], fs).
Proof. unfold print. now intros ->. Qed.

(** A candidate whose first line can be printed goes through the body. *)
Lemma register_module_ok m :
  two_parts m -> printable m = true ->
  register_module m fs = (Ret tt, module_events m, fs).
Proof.
  intros H Hp. destruct (two_parts_inv m H) as (d & f & ->).
  assert (H2 : stdout_encodes ("Including " ++ stem [d; f] ++ " as a module.") = true).
  { rewrite encodes_second_line. apply encodes_stem.
    rewrite printable_two in Hp. now apply andb_true_iff in Hp. }
  unfold register_module, bind. rewrite (print_ok _ Hp).
  cbn [unpack2 parts ret]. rewrite (print_ok _ H2). reflexivity.
Qed.

(** The body stops at its first statement when the line cannot be printed. *)
Lemma register_module_unprintable m :
  printable m = false ->
  register_module m fs =
  (Raise (UnicodeEncodeError ("INCLUDING " ++ str m ++ " as a module.")), [], fs).
Proof. intros Hp. unfold register_module, bind. now rewrite (print_fail _ Hp). Qed.

Lemma register_module_raise m :
  ~ two_parts m -> printable m = true ->
  exists msg,
    register_module m fs =
    (Raise (ValueError msg),
     [Stdout ("INCLUDING " ++ str m ++ " as a module.")], fs).
Proof.
  unfold two_parts, parts. intros H Hp.
  unfold register_module, bind. rewrite (print_ok _ Hp).
  destruct m as [|d [|f [|x m]]]; try (eexists; reflexivity).
  now elim H.
Qed.

Lemma for_in_app {A : Type} (body : A -> M unit) (a b : list A) (fs0 : node) :
  for_in (a ++ b) body fs0 =
  match for_in a body fs0 with
  | (Ret _, t1, fs1) =>
      match for_in b body fs1 with
      | (r, t2, fs2) => (r, t1 ++ t2, fs2)
      end
  | (Raise x, t1, fs1) => (Raise x, t1, fs1)
  end.
Proof.
  revert fs0. induction a as [|x a IH]; intros fs0.
  - cbn. now destruct (for_in b body fs0) as [[r t] fs'].
  - cbn [app for_in]. unfold bind.
    destruct (body x fs0) as [[[[]|e] t0] fs1]; [|reflexivity].
    rewrite IH. destruct (for_in a body fs1) as [[[[]|e] t1] fs2].
    + destruct (for_in b body fs2) as [[r t2] fs3]. now rewrite app_assoc.
    + reflexivity.
Qed.

(** The loop over candidates that unpack: it goes through the candidates
    that can be printed and stops at the first that cannot. *)
Lemma for_in_two ms :
  Forall two_parts ms ->
  for_in ms register_module fs =
  (loop_outcome ms, flat_map module_events (take_while printable ms), fs).
Proof.
  induction 1 as [|m ms Hm _ IH]; [reflexivity|].
  cbn [for_in take_while loop_outcome]. unfold bind.
  destruct (printable m) eqn:Hp.
  - rewrite (register_module_ok m Hm Hp), IH. reflexivity.
  - now rewrite (register_module_unprintable m Hp).
Qed.

(** Path objects are all true, so [any] only tells whether the list is
    empty. *)
Lemma any_truthy (ms : list Path) :
  any truthy ms = match ms with [] => false | _ :: _ => true end.
Proof. now destruct ms. Qed.

Lemma freeze_modules_for_in ms :
  freeze_modules ms fs = for_in ms register_module fs.
Proof. unfold freeze_modules. rewrite any_truthy. now destruct ms. Qed.

End Loop.

(** * Prefixes and outcomes *)

Lemma take_while_all {A : Type} (f : A -> bool) l :
  forallb f l = true -> take_while f l = l.
Proof.
  induction l as [|x l IH]; [reflexivity|]. cbn. intros H.
  apply andb_true_iff in H. destruct H as [-> H]. now rewrite IH.
Qed.

Lemma take_while_map {A B : Type} (g : A -> B) (f : B -> bool) l :
  take_while f (map g l) = map g (take_while (fun x => f (g x)) l).
Proof.
  induction l as [|x l IH]; [reflexivity|]. cbn.
  destruct (f (g x)); [now rewrite IH | reflexivity].
Qed.

Lemma take_while_ext {A : Type} (f g : A -> bool) l :
  (forall x, f x = g x) -> take_while f l = take_while g l.
Proof.
  intros H. induction l as [|x l IH]; [reflexivity|]. cbn.
  now rewrite H, IH.
Qed.

Lemma take_while_app {A : Type} (f : A -> bool) a b :
  take_while f (a ++ b) =
  if forallb f a then a ++ take_while f b else take_while f a.
Proof.
  induction a as [|x a IH]; [reflexivity|]. cbn.
  destruct (f x); [|reflexivity]. cbn. rewrite IH. now destruct (forallb f a).
Qed.

Lemma take_while_incl {A : Type} (f : A -> bool) l x :
  In x (take_while f l) -> In x l /\ f x = true.
Proof.
  induction l as [|y l IH]; [contradiction|]. cbn.
  destruct (f y) eqn:Hy; [|contradiction].
  intros [-> | H]; [now split; [left|] | destruct (IH H); split; [now right | assumption]].
Qed.

Lemma loop_outcome_all ms :
  forallb printable ms = true -> loop_outcome ms = Ret tt.
Proof.
  induction ms as [|m ms IH]; [reflexivity|]. cbn. intros H.
  apply andb_true_iff in H. destruct H as [-> H]. now apply IH.
Qed.

Lemma loop_outcome_stop ms :
  forallb printable ms = false ->
  exists m, In m ms /\ printable m = false /\
    loop_outcome ms =
      Raise (UnicodeEncodeError ("INCLUDING " ++ str m ++ " as a module.")).
Proof.
  induction ms as [|m ms IH]; [discriminate|]. cbn.
  destruct (printable m) eqn:Hp; cbn.
  - intros H. destruct (IH H) as (m' & Hin & Hp' & Ho). exists m'. auto.
  - intros _. exists m. auto.
Qed.

Lemma loop_outcome_cases ms :
  loop_outcome ms = Ret tt \/
  exists line, loop_outcome ms = Raise (UnicodeEncodeError line).
Proof.
  destruct (forallb printable ms) eqn:H.
  - left. now apply loop_outcome_all.
  - right. destruct (loop_outcome_stop ms H) as (m & _ & _ & ->). eauto.
Qed.

Lemma loop_outcome_ret ms :
  loop_outcome ms = Ret tt -> forallb printable ms = true.
Proof.
  destruct (forallb printable ms) eqn:H; [reflexivity|].
  destruct (loop_outcome_stop ms H) as (m & _ & _ & ->). discriminate.
Qed.

Lemma forallb_printable_candidates names :
  forallb printable (map candidate names) = forallb stdout_encodes names.
Proof.
  induction names as [|n names IH]; [reflexivity|]. cbn [map forallb].
  now rewrite printable_candidate, IH.
Qed.

Lemma printed_candidates names :
  take_while printable (map candidate names) =
  map candidate (take_while stdout_encodes names).
Proof.
  rewrite take_while_map. f_equal. apply take_while_ext. intros n.
  apply printable_candidate.
Qed.

(** * What a trace of loop events holds *)

Lemma freezes_module_events ms :
  filter is_freeze (flat_map module_events ms) =
  map (fun m => CallFreezeAsMpy (name (parent m)) (name m)) ms.
Proof. by_candidates ms. Qed.

Lemma includes_module_events ms :
  filter is_include (flat_map module_events ms) = [].
Proof. by_candidates ms. Qed.

Lemma sys_module_events ms :
  filter is_sys (flat_map module_events ms) = [].
Proof. by_candidates ms. Qed.

Lemma calls_module_events ms :
  calls (flat_map module_events ms) =
  map (fun m => CallFreezeAsMpy (name (parent m)) (name m)) ms.
Proof. unfold calls. by_candidates ms. Qed.

Lemma stdout_module_events ms :
  filter is_stdout (flat_map module_events ms) = flat_map diagnostics ms.
Proof. by_candidates ms. Qed.

Lemma freezes_candidates names :
  filter is_freeze (flat_map module_events (map candidate names)) =
  map (CallFreezeAsMpy "modules") names.
Proof. rewrite freezes_module_events, map_map. reflexivity. Qed.

Lemma module_events_candidates names :
  flat_map module_events (map candidate names) =
  flat_map (fun m => diagnostics m ++ [CallFreezeAsMpy "modules" (name m)])
           (map candidate names).
Proof. by_candidates names. Qed.

Lemma candidates_two_parts names : Forall two_parts (map candidate names).
Proof. induction names; simpl; constructor; auto. reflexivity. Qed.

Lemma in_filter_is_py f es :
  In f (filter is_py (map fst es)) ->
  is_py f = true /\ exists n : node, In (f, n) es.
Proof.
  intros H. apply filter_In in H. destruct H as [H Hpy]. split; [exact Hpy|].
  apply in_map_iff in H. destruct H as ([f' n] & Hf & Hin). simpl in Hf. subst f'.
  now exists n.
Qed.

Lemma scandir_of_inr cwd p names :
  scandir_of cwd p = inr names ->
  exists es, lookup p cwd = inr (Dir es) /\ names = map fst es.
Proof.
  unfold scandir_of. destruct (lookup p cwd) as [e|[c|es|e|e]]; try discriminate.
  intros H. inversion H. now exists es.
Qed.

(** * Runs of the scan and of the manifest *)

Section Scan.

Variable cwd : node.

(** The scan, case by case on what the operating system answers. *)
Lemma scan_run :
  scan cwd =
  match stat_of cwd modules_dir with
  | inl e =>
      if _ignore_error e then (Ret [], [SysStat "modules"], cwd)
      else (Raise (OSError e), [SysStat "modules"], cwd)
  | inr S_IFREG => (Ret [], [SysStat "modules"], cwd)
  | inr S_IFDIR =>
      match scandir_of cwd modules_dir with
      | inr names =>
          (Ret (map candidate (filter is_py names)),
           [SysStat "modules"; SysScandir "modules"], cwd)
      | inl e =>
          if is_PermissionError (OSError e)
          then (Ret [], [SysStat "modules"; SysScandir "modules"], cwd)
          else (Raise (OSError e), [SysStat "modules"; SysScandir "modules"], cwd)
      end
  end.
Proof.
  unfold scan, glob, select_from, is_dir, _select_from, try_except, bind,
    os_stat, os_scandir, emit, bind, ret, raise.
  change (PurePath "./modules") with modules_dir.
  destruct (stat_of cwd modules_dir) as [e|[|]]; cbn.
  - destruct (_ignore_error e) eqn:He; cbn; rewrite ?He; reflexivity.
  - reflexivity.
  - destruct (scandir_of cwd modules_dir) as [e|names]; cbn.
    + destruct e; reflexivity.
    + do 2 f_equal. f_equal. f_equal. apply filter_ext. intros n.
      apply compile_pattern_py.
Qed.

(** The three ways a scan can end. *)
Lemma scan_cases :
  (exists es,
      lookup modules_dir cwd = inr (Dir es) /\
      scan cwd = (Ret (map candidate (filter is_py (map fst es))),
                  [SysStat "modules"; SysScandir "modules"], cwd))
  \/ (exists t,
      scan cwd = (Ret [], t, cwd) /\
      (t = [SysStat "modules"] \/ t = [SysStat "modules"; SysScandir "modules"]))
  \/ (exists e t,
      scan cwd = (Raise (OSError e), t, cwd) /\
      (t = [SysStat "modules"] \/ t = [SysStat "modules"; SysScandir "modules"])).
Proof.
  rewrite scan_run. os_answers cwd.
  - right; left; eauto.
  - right; right; eauto.
  - right; left; eauto.
  - right; left; eauto.
  - right; right; eauto.
  - destruct (scandir_of_inr _ _ _ Hd) as (es & Hl & ->). left. eauto.
Qed.

Lemma scan_fs : fs_of (scan cwd) = cwd.
Proof.
  destruct scan_cases as [(es & _ & ->) | [(t & -> & _) | (e & t & -> & _)]];
    reflexivity.
Qed.

(** Every path the scan returns is [modules/n] for an entry name [n]. *)
Lemma scan_candidates ms :
  outcome_of (scan cwd) = Ret ms -> exists names, ms = map candidate names.
Proof.
  destruct scan_cases as [(es & _ & Hs) | [(t & Hs & _) | (e & t & Hs & _)]];
    rewrite Hs; cbn; intros H; inversion H; subst.
  - eauto.
  - now exists [].
Qed.

(** So it has two components: the unpacking in the loop cannot fail on the
    result of the scan. *)
Lemma scan_two_parts ms :
  outcome_of (scan cwd) = Ret ms -> Forall two_parts ms.
Proof.
  intros H. destruct (scan_candidates ms H) as [names ->].
  apply candidates_two_parts.
Qed.

(** The scan begins with the examination of the directory, and does nothing
    but examine and list it. *)
Lemma scan_trace_head :
  exists t, trace_of (scan cwd) = SysStat "modules" :: t /\
            (t = [] \/ t = [SysScandir "modules"]).
Proof.
  destruct scan_cases as [(es & _ & ->) | [(t & -> & Ht) | (e & t & -> & Ht)]];
    cbn; [ | destruct Ht as [-> | ->] .. ]; eauto.
Qed.

Lemma scan_trace_stdout : filter is_stdout (trace_of (scan cwd)) = [].
Proof. destruct scan_trace_head as (t & -> & [-> | ->]); reflexivity. Qed.

(** The manifest is the include, the scan, and the loop over its result. *)
Lemma manifest_run :
  manifest cwd =
  match scan cwd with
  | (Ret ms, t, fs1) =>
      match for_in ms register_module fs1 with
      | (r, t2, fs2) => (r, CallInclude "./modules/uasyncio" :: t ++ t2, fs2)
      end
  | (Raise x, t, fs1) => (Raise x, CallInclude "./modules/uasyncio" :: t, fs1)
  end.
Proof.
  unfold manifest, bind, include, emit. fold scan.
  destruct (scan cwd) as [[[ms|x] t] fs1]; cbn.
  - rewrite freeze_modules_for_in.
    now destruct (for_in ms register_module fs1) as [[r t2] fs2].
  - reflexivity.
Qed.

Lemma manifest_scan_ret ms :
  outcome_of (scan cwd) = Ret ms ->
  manifest cwd =
  (loop_outcome ms,
   CallInclude "./modules/uasyncio" ::
     trace_of (scan cwd) ++ flat_map module_events (take_while printable ms),
   cwd).
Proof.
  intros H. pose proof (scan_two_parts ms H) as H2.
  pose proof scan_fs as Hfs.
  rewrite manifest_run. destruct (scan cwd) as [[r t] fs1].
  cbn in H, Hfs |- *. subst r fs1. now rewrite (for_in_two cwd ms H2).
Qed.

Lemma manifest_scan_raise x :
  outcome_of (scan cwd) = Raise x ->
  manifest cwd =
  (Raise x, CallInclude "./modules/uasyncio" :: trace_of (scan cwd), cwd).
Proof.
  intros H. pose proof scan_fs as Hfs.
  rewrite manifest_run. destruct (scan cwd) as [[r t] fs1].
  cbn in H, Hfs |- *. now subst r fs1.
Qed.

(** The run over a directory [./modules] with entries [es]. *)
Lemma manifest_dir es :
  lookup modules_dir cwd = inr (Dir es) ->
  manifest cwd =
  (loop_outcome (map candidate (filter is_py (map fst es))),
   CallInclude "./modules/uasyncio" :: SysStat "modules" :: SysScandir "modules" ::
     flat_map module_events
       (map candidate (take_while stdout_encodes (filter is_py (map fst es)))),
   cwd).
Proof.
  intros H. pose proof scan_run as Hrun.
  unfold stat_of, scandir_of in Hrun. rewrite H in Hrun.
  rewrite (manifest_scan_ret (map candidate (filter is_py (map fst es))));
    rewrite Hrun; [|reflexivity].
  now rewrite printed_candidates.
Qed.

Lemma manifest_fs : fs_of (manifest cwd) = cwd.
Proof.
  destruct (outcome_of (scan cwd)) as [ms|x] eqn:H.
  - now rewrite (manifest_scan_ret ms H).
  - now rewrite (manifest_scan_raise x H).
Qed.

(** The run over a directory whose matching names can all be encoded. *)
Lemma manifest_dir_encodable es :
  lookup modules_dir cwd = inr (Dir es) ->
  forallb stdout_encodes (filter is_py (map fst es)) = true ->
  manifest cwd =
  (Ret tt,
   CallInclude "./modules/uasyncio" :: SysStat "modules" :: SysScandir "modules" ::
     flat_map module_events (map candidate (filter is_py (map fst es))),
   cwd).
Proof.
  intros H Henc. rewrite (manifest_dir es H), (take_while_all _ _ Henc).
  rewrite loop_outcome_all; [reflexivity|].
  now rewrite forallb_printable_candidates.
Qed.

End Scan.

(** The outcome and the trace of the scan depend on the filesystem only
    through the two answers of the operating system about [./modules]. *)
Lemma scan_depends cwd cwd' :
  stat_of cwd modules_dir = stat_of cwd' modules_dir ->
  scandir_of cwd modules_dir = scandir_of cwd' modules_dir ->
  outcome_of (scan cwd') = outcome_of (scan cwd) /\
  trace_of (scan cwd') = trace_of (scan cwd).
Proof.
  intros H1 H2. rewrite !scan_run, <- H1, <- H2.
  os_answers cwd; split; reflexivity.
Qed.

(** When the scan raises. *)
Lemma scan_raises_iff cwd x :
  outcome_of (scan cwd) = Raise x <->
  exists e, x = OSError e /\
    ((stat_of cwd modules_dir = inl e /\ _ignore_error e = false) \/
     (stat_of cwd modules_dir = inr S_IFDIR /\
      scandir_of cwd modules_dir = inl e /\
      is_PermissionError (OSError e) = false)).
Proof.
  rewrite scan_run.
  destruct (stat_of cwd modules_dir) as [e|[|]] eqn:Hs.
  - destruct (_ignore_error e) eqn:Hi; unfold outcome_of; cbn [fst]; split.
    + discriminate.
    + intros (e' & _ & [[He Hf] | [He _]]); [|discriminate].
      inversion He; subst. congruence.
    + intros H. inversion H. eauto.
    + intros (e' & -> & [[He Hf] | [He _]]); [|discriminate].
      now inversion He.
  - unfold outcome_of; cbn [fst]; split; [discriminate|].
    intros (e' & _ & [[He _] | [He _]]); discriminate.
  - destruct (scandir_of cwd modules_dir) as [e|names] eqn:Hd.
    + destruct (is_PermissionError (OSError e)) eqn:Hp; unfold outcome_of; cbn [fst]; split.
      * discriminate.
      * intros (e' & _ & [[He _] | (_ & He & Hf)]); [discriminate|].
        inversion He; subst. congruence.
      * intros H. inversion H. eauto 8.
      * intros (e' & -> & [[He _] | (_ & He & Hf)]); [discriminate|].
        now inversion He.
    + unfold outcome_of; cbn [fst]; split; [discriminate|].
      intros (e' & _ & [[He _] | (_ & He & _)]); discriminate.
Qed.

(** Without a directory that can be listed no candidate is registered. *)
Lemma no_freeze_without_dir cwd :
  (forall es, lookup modules_dir cwd <> inr (Dir es)) ->
  filter is_freeze (trace_of (manifest cwd)) = [].
Proof.
  intros Hno.
  destruct (scan_cases cwd) as [(es & Hl & _) | [(t & Hs & Ht) | (e & t & Hs & Ht)]].
  - now elim (Hno es).
  - rewrite (manifest_scan_ret cwd _ (f_equal outcome_of Hs)), Hs.
    destruct Ht as [-> | ->]; reflexivity.
  - rewrite (manifest_scan_raise cwd _ (f_equal outcome_of Hs)), Hs.
    destruct Ht as [-> | ->]; reflexivity.
Qed.

(** * The claims *)

(** C1, as stated, fails: [./modules] holds three entries matching [*.py],
    the second with a name that standard output cannot encode; the run
    makes the include call and one [freeze_as_mpy] call, then ends with the
    error of the print. *)
Lemma C1_one_call_per_match_counterexample :
  lookup modules_dir ff_tree =
    inr (Dir [("a.py", File "import a"); (ff_py, File "x = 1");
              ("b.py", File "import b")]) /\
  filter (compile_pattern "*.py") ["a.py"; ff_py; "b.py"] = ["a.py"; ff_py; "b.py"] /\
  manifest ff_tree =
    (Raise (UnicodeEncodeError ("INCLUDING modules/" ++ ff_py ++ " as a module.")),
     [CallInclude "./modules/uasyncio"; SysStat "modules"; SysScandir "modules";
      Stdout "INCLUDING modules/a.py as a module."; Stdout "Including a as a module.";
      CallFreezeAsMpy "modules" "a.py"],
     ff_tree) /\
  ~ one_call_per_match ff_tree.
Proof.
  split; [reflexivity|]. split; [reflexivity|]. split; [reflexivity|].
  intros H. destruct (H _ eq_refl) as [Hlen _]. vm_compute in Hlen. discriminate Hlen.
Qed.

(** C1, amended: over a directory [./modules] whose entries [es] hold N
    names matching [*.py] (the names ending in [".py"]), the trace holds
    exactly one [include] call, for ["./modules/uasyncio"], and one
    [freeze_as_mpy] call per matching name up to the first that standard
    output cannot encode.  When it can encode them all, the run completes
    with exactly N [freeze_as_mpy] calls, N + 1 calls in all; otherwise the
    run ends with the [UnicodeEncodeError] of a print.  A directory whose
    listing the operating system refuses gets no [freeze_as_mpy] call. *)
Theorem C1_one_call_per_match (cwd : node) (es : list (string * node)) :
  (lookup modules_dir cwd = inr (Dir es) ->
     filter is_include (trace_of (manifest cwd)) = [CallInclude "./modules/uasyncio"] /\
     List.length (filter (compile_pattern "*.py") (map fst es)) =
       List.length (filter is_py (map fst es)) /\
     List.length (filter is_freeze (trace_of (manifest cwd))) =
       List.length (take_while stdout_encodes
                      (filter (compile_pattern "*.py") (map fst es))) /\
     (forallb stdout_encodes (filter (compile_pattern "*.py") (map fst es)) = true ->
        outcome_of (manifest cwd) = Ret tt /\
        List.length (filter is_freeze (trace_of (manifest cwd))) =
          List.length (filter (compile_pattern "*.py") (map fst es)) /\
        List.length (calls (trace_of (manifest cwd))) =
          S (List.length (filter (compile_pattern "*.py") (map fst es)))) /\
     (forallb stdout_encodes (filter (compile_pattern "*.py") (map fst es)) = false ->
        exists line, outcome_of (manifest cwd) = Raise (UnicodeEncodeError line))) /\
  (forall e, lookup modules_dir cwd = inr (NoList e) ->
     filter is_freeze (trace_of (manifest cwd)) = []).
Proof.
  split; [|intros e He; apply no_freeze_without_dir; intros es'; rewrite He; discriminate].
  intros H. rewrite (filter_ext _ _ compile_pattern_py). fold is_py.
  split; [|split; [reflexivity|split; [|split]]].
  - rewrite (manifest_dir cwd es H). cbn [trace_of fst snd filter is_include].
    now rewrite includes_module_events.
  - rewrite (manifest_dir cwd es H). cbn [trace_of fst snd filter is_freeze].
    now rewrite freezes_candidates, length_map.
  - intros Henc. rewrite (manifest_dir_encodable cwd es H Henc).
    unfold outcome_of, trace_of, calls.
    cbn [fst snd filter is_include is_freeze is_call orb].
    fold (calls (flat_map module_events (map candidate (filter is_py (map fst es))))).
    rewrite freezes_candidates, calls_module_events.
    cbn [List.length]. rewrite !length_map. repeat split; reflexivity.
  - intros Henc. rewrite (manifest_dir cwd es H). cbn [outcome_of fst].
    rewrite <- forallb_printable_candidates in Henc.
    destruct (loop_outcome_stop _ Henc) as (m & _ & _ & ->). eauto.
Qed.

Lemma C1_one_call_per_match_witness :
  lookup modules_dir mixed_tree =
    inr (Dir [("hub.py", File "x = 1"); ("notes.txt", File "todo");
              ("uasyncio", Dir [("core.py", File "y = 2")]);
              ("motor.py", File "z = 3")]) /\
  List.length (filter is_freeze (trace_of (manifest mixed_tree))) = 2%nat /\
  List.length (calls (trace_of (manifest mixed_tree))) = 3%nat.
Proof.
  split; [reflexivity|].
  destruct (proj1 (C1_one_call_per_match mixed_tree _) eq_refl)
    as (_ & _ & _ & Hall & _).
  destruct (Hall eq_refl) as (_ & Hf & Hc).
  split; [exact Hf | exact Hc].
Defined.

(** C2: in every run the first event is the [include] call, followed by the
    start of the scan, and no other [include] follows; when the scan yields
    no candidate the run completes with that single call and no
    [freeze_as_mpy] call. *)
Theorem C2_no_candidates (cwd : node) :
  (exists t,
      trace_of (manifest cwd) =
        CallInclude "./modules/uasyncio" :: SysStat "modules" :: t /\
      filter is_include t = []) /\
  (outcome_of (scan cwd) = Ret [] ->
     outcome_of (manifest cwd) = Ret tt /\
     calls (trace_of (manifest cwd)) = [CallInclude "./modules/uasyncio"] /\
     filter is_freeze (trace_of (manifest cwd)) = []).
Proof.
  split.
  - destruct (scan_cases cwd) as [(es & _ & Hs) | [(t & Hs & Ht) | (e & t & Hs & Ht)]].
    + rewrite (manifest_scan_ret cwd _ (f_equal outcome_of Hs)), Hs.
      cbn. eexists; split; [reflexivity|]. cbn. apply includes_module_events.
    + rewrite (manifest_scan_ret cwd _ (f_equal outcome_of Hs)), Hs.
      destruct Ht as [-> | ->]; cbn; eexists; split; reflexivity.
    + rewrite (manifest_scan_raise cwd _ (f_equal outcome_of Hs)), Hs.
      destruct Ht as [-> | ->]; cbn; eexists; split; reflexivity.
  - intros H. rewrite (manifest_scan_ret cwd [] H). cbn.
    rewrite app_nil_r.
    destruct (scan_trace_head cwd) as (t & -> & [-> | ->]); cbn; auto.
Qed.

Lemma C2_no_candidates_witness :
  outcome_of (scan no_match_tree) = Ret [] /\
  calls (trace_of (manifest no_match_tree)) = [CallInclude "./modules/uasyncio"].
Proof.
  split; [reflexivity|].
  exact (proj1 (proj2 (proj2 (C2_no_candidates no_match_tree) eq_refl))).
Defined.

(** C3: for a candidate [m] of exactly two components, every
    [freeze_as_mpy] call the loop body makes is
    [freeze_as_mpy (name of m's parent) (name of m)], the name being the
    final component with its extension; the body makes that call whenever
    the first line of [m] can be printed, and makes none otherwise.  In a run
    of the manifest the [freeze_as_mpy] calls are exactly these, in order,
    for the scanned paths that come before the first whose line cannot be
    printed. *)
Theorem C3_freeze_arguments (m : Path) (fs cwd : node) (ms : list Path) :
  (two_parts m ->
     (forall p f,
         In (CallFreezeAsMpy p f) (trace_of (register_module m fs)) ->
         p = name (parent m) /\ f = name m) /\
     (printable m = true ->
        exists l1 l2,
          register_module m fs =
          (Ret tt,
           [Stdout l1; Stdout l2; CallFreezeAsMpy (name (parent m)) (name m)],
           fs)) /\
     (printable m = false ->
        filter is_freeze (trace_of (register_module m fs)) = [])) /\
  (outcome_of (scan cwd) = Ret ms ->
     Forall two_parts ms /\
     filter is_freeze (trace_of (manifest cwd)) =
       map (fun m => CallFreezeAsMpy (name (parent m)) (name m))
           (take_while printable ms)).
Proof.
  split.
  - intros H. split; [|split].
    + intros p f. destruct (printable m) eqn:Hp.
      * rewrite (register_module_ok fs m H Hp). cbn.
        intros [Hx | [Hx | [Hx | []]]]; inversion Hx. now split.
      * rewrite (register_module_unprintable fs m Hp). cbn. contradiction.
    + intros Hp. rewrite (register_module_ok fs m H Hp). unfold module_events. eauto.
    + intros Hp. now rewrite (register_module_unprintable fs m Hp).
  - intros H. split; [exact (scan_two_parts cwd ms H)|].
    rewrite (manifest_scan_ret cwd ms H). cbn [trace_of fst snd filter is_freeze].
    rewrite filter_app, freezes_module_events.
    destruct (scan_trace_head cwd) as (t & -> & [-> | ->]); reflexivity.
Qed.

Lemma C3_freeze_arguments_witness :
  two_parts ["modules"; "hub.py"] /\
  printable ["modules"; "hub.py"] = true /\
  outcome_of (scan mixed_tree) = Ret [["modules"; "hub.py"]; ["modules"; "motor.py"]] /\
  (exists l1 l2,
      register_module ["modules"; "hub.py"] mixed_tree =
      (Ret tt, [Stdout l1; Stdout l2; CallFreezeAsMpy "modules" "hub.py"], mixed_tree)) /\
  filter is_freeze (trace_of (manifest mixed_tree)) =
    [CallFreezeAsMpy "modules" "hub.py"; CallFreezeAsMpy "modules" "motor.py"].
Proof.
  split; [reflexivity|]. split; [reflexivity|]. split; [reflexivity|].
  pose proof (C3_freeze_arguments ["modules"; "hub.py"] mixed_tree mixed_tree
                [["modules"; "hub.py"]; ["modules"; "motor.py"]]) as [H1 H2].
  split; [exact (proj1 (proj2 (H1 eq_refl)) eq_refl) | exact (proj2 (H2 eq_refl))].
Defined.

(** C4: for a path [m] whose number of components is not two, the
    unpacking raises [ValueError]; the loop over any list that holds [m],
    after candidates [pre] that unpack, ends with an error, and its
    [freeze_as_mpy] calls are calls for candidates of [pre] only, none for
    [m] and none for what follows it.  When the lines of [pre] and the first
    line of [m] can be printed the error is the [ValueError] of the
    unpacking: the trace holds the events of [pre] and the first line
    printed for [m]. *)
Theorem C4_unpacking_aborts (pre : list Path) (m : Path) (post : list Path)
    (fs : node) :
  Forall two_parts pre -> ~ two_parts m ->
  (exists msg, unpack2 (parts m) fs = (Raise (ValueError msg), [], fs)) /\
  (exists x, outcome_of (freeze_modules (pre ++ m :: post) fs) = Raise x) /\
  filter is_freeze (trace_of (freeze_modules (pre ++ m :: post) fs)) =
    map (fun p => CallFreezeAsMpy (name (parent p)) (name p))
        (take_while printable pre) /\
  fs_of (freeze_modules (pre ++ m :: post) fs) = fs /\
  (forallb printable pre = true -> printable m = true ->
     (exists msg,
         outcome_of (freeze_modules (pre ++ m :: post) fs) = Raise (ValueError msg)) /\
     trace_of (freeze_modules (pre ++ m :: post) fs) =
       (flat_map module_events pre ++
          [Stdout ("INCLUDING " ++ str m ++ " as a module.")])%list /\
     filter is_freeze (trace_of (freeze_modules (pre ++ m :: post) fs)) =
       map (fun p => CallFreezeAsMpy (name (parent p)) (name p)) pre).
Proof.
  intros Hpre Hm. split.
  { unfold two_parts, parts in Hm. unfold parts.
    destruct m as [|d [|f [|x m]]]; try (eexists; reflexivity). now elim Hm. }
  rewrite freeze_modules_for_in, for_in_app, (for_in_two fs pre Hpre).
  destruct (forallb printable pre) eqn:Hall.
  - rewrite (loop_outcome_all pre Hall), (take_while_all _ _ Hall).
    cbn [for_in]. unfold bind. destruct (printable m) eqn:Hp.
    + destruct (register_module_raise fs m Hm Hp) as [msg ->]. cbn.
      rewrite filter_app, freezes_module_events. cbn. rewrite app_nil_r.
      split; [eauto|]. split; [reflexivity|]. split; [reflexivity|].
      intros _ _. split; [eauto|]. split; reflexivity.
    + rewrite (register_module_unprintable fs m Hp). cbn.
      rewrite app_nil_r, freezes_module_events.
      split; [eauto|]. split; [reflexivity|]. split; [reflexivity|].
      intros _ Hx. discriminate Hx.
  - destruct (loop_outcome_stop pre Hall) as (m' & _ & _ & ->). cbn.
    rewrite freezes_module_events.
    split; [eauto|]. split; [reflexivity|]. split; [reflexivity|].
    intros Hx. discriminate Hx.
Qed.

Lemma C4_unpacking_aborts_witness :
  Forall two_parts [["modules"; "a.py"]] /\
  ~ two_parts ["modules"; "sub"; "x.py"] /\
  outcome_of (freeze_modules [["modules"; "a.py"]; ["modules"; "sub"; "x.py"];
                              ["modules"; "b.py"]] a_b_tree)
    = Raise (ValueError "too many values to unpack (expected 2)") /\
  filter is_freeze
    (trace_of (freeze_modules [["modules"; "a.py"]; ["modules"; "sub"; "x.py"];
                               ["modules"; "b.py"]] a_b_tree))
    = [CallFreezeAsMpy "modules" "a.py"].
Proof.
  assert (H1 : Forall two_parts [["modules"; "a.py"]]) by (repeat constructor).
  assert (H2 : ~ two_parts ["modules"; "sub"; "x.py"]) by (unfold two_parts; simpl; lia).
  split; [exact H1|]. split; [exact H2|]. split; [reflexivity|].
  exact (proj1 (proj2 (proj2
    (C4_unpacking_aborts [["modules"; "a.py"]] ["modules"; "sub"; "x.py"]
       [["modules"; "b.py"]] a_b_tree H1 H2)))).
Defined.

(** C5, as stated, fails: in an empty working directory [./modules] is
    missing, yet the scan returns the empty list of candidates and the
    script raises nothing. *)
Lemma C5_missing_directory_counterexample :
  lookup modules_dir empty_tree = inl ENOENT /\
  scan empty_tree = (Ret [], [SysStat "modules"], empty_tree) /\
  manifest empty_tree =
    (Ret tt, [CallInclude "./modules/uasyncio"; SysStat "modules"], empty_tree) /\
  ~ missing_modules_aborts empty_tree.
Proof.
  split; [reflexivity|]. split; [reflexivity|]. split; [reflexivity|].
  intros H. destruct (H eq_refl) as (x & Hx & _). discriminate Hx.
Qed.

(** C5, amended: when [./modules] is missing the scan raises nothing and
    gives no candidate ([is_dir] answers false for [ENOENT]), so the script
    makes the include call alone and ends without an error of its own.  The
    scan raises exactly when examining [./modules] fails with an error other
    than [ENOENT], [ENOTDIR], [EBADF], [ELOOP], or listing it fails with an
    error other than a permission error; the script does not handle that
    error: the run ends with it right after the scan, with the include call
    and no [freeze_as_mpy] call. *)
Theorem C5_missing_directory (cwd : node) :
  (lookup modules_dir cwd = inl ENOENT ->
     outcome_of (scan cwd) = Ret [] /\
     manifest cwd =
       (Ret tt, [CallInclude "./modules/uasyncio"; SysStat "modules"], cwd)) /\
  (forall x, outcome_of (scan cwd) = Raise x ->
     outcome_of (manifest cwd) = Raise x /\
     trace_of (manifest cwd) =
       CallInclude "./modules/uasyncio" :: trace_of (scan cwd) /\
     calls (trace_of (manifest cwd)) = [CallInclude "./modules/uasyncio"]) /\
  (forall x, outcome_of (scan cwd) = Raise x <->
     exists e, x = OSError e /\
       ((stat_of cwd modules_dir = inl e /\ _ignore_error e = false) \/
        (stat_of cwd modules_dir = inr S_IFDIR /\
         scandir_of cwd modules_dir = inl e /\
         is_PermissionError (OSError e) = false))).
Proof.
  split; [|split].
  - intros H.
    assert (Hs : scan cwd = (Ret [], [SysStat "modules"], cwd)).
    { rewrite scan_run. unfold stat_of. now rewrite H. }
    rewrite (manifest_scan_ret cwd [] (f_equal outcome_of Hs)), Hs.
    split; reflexivity.
  - intros x H. rewrite (manifest_scan_raise cwd x H). cbn.
    split; [reflexivity|]. split; [reflexivity|].
    destruct (scan_trace_head cwd) as (t & -> & [-> | ->]); reflexivity.
  - intros x. apply scan_raises_iff.
Qed.

Lemma C5_missing_directory_witness :
  lookup modules_dir empty_tree = inl ENOENT /\
  outcome_of (manifest empty_tree) = Ret tt /\
  outcome_of (scan unreadable_tree) = Raise (OSError EIO) /\
  outcome_of (manifest unreadable_tree) = Raise (OSError EIO).
Proof.
  split; [reflexivity|].
  split; [exact (f_equal outcome_of
                   (proj2 (proj1 (C5_missing_directory empty_tree) eq_refl)))|].
  split; [reflexivity|].
  exact (proj1 (proj1 (proj2 (C5_missing_directory unreadable_tree))
                  (OSError EIO) eq_refl)).
Defined.

(** C6, as stated, fails: a directory named [pkg.py] inside [./modules]
    matches the pattern and is registered. *)
Lemma C6_files_only_counterexample :
  lookup ["modules"; "pkg.py"] package_tree = inr (Dir [("inner.py", File "x = 1")]) /\
  In (CallFreezeAsMpy "modules" "pkg.py") (trace_of (manifest package_tree)) /\
  ~ registered_are_files package_tree.
Proof.
  assert (Hin : In (CallFreezeAsMpy "modules" "pkg.py")
                   (trace_of (manifest package_tree))).
  { vm_compute. do 5 right. now left. }
  split; [reflexivity|]. split; [exact Hin|].
  intros H. destruct (H _ _ Hin) as (_ & c & Hc). discriminate Hc.
Qed.

(** C6, amended: over a directory [./modules] the [freeze_as_mpy] calls
    are, in enumeration order, one per entry of that directory whose name
    ends in [".py"], whatever the kind of the entry (file or directory), up
    to the first such name that standard output cannot encode, and one per
    such entry when it can encode them all; and in any run every registered
    pair is [("modules", f)] with [f] the name of an entry directly inside
    [./modules] ending in [".py"], so that nothing below a subdirectory is
    registered.  A directory whose listing the operating system refuses gets
    no [freeze_as_mpy] call. *)
Theorem C6_immediate_children (cwd : node) :
  (forall es,
      lookup modules_dir cwd = inr (Dir es) ->
      filter is_freeze (trace_of (manifest cwd)) =
        map (CallFreezeAsMpy "modules")
            (take_while stdout_encodes (filter is_py (map fst es))) /\
      (forallb stdout_encodes (filter is_py (map fst es)) = true ->
       filter is_freeze (trace_of (manifest cwd)) =
         map (CallFreezeAsMpy "modules") (filter is_py (map fst es)))) /\
  (forall p f,
      In (CallFreezeAsMpy p f) (trace_of (manifest cwd)) ->
      p = "modules" /\
      exists es n,
        lookup modules_dir cwd = inr (Dir es) /\ In (f, n) es /\
        exists base, f = (base ++ ".py")%string) /\
  (forall e, lookup modules_dir cwd = inr (NoList e) ->
     filter is_freeze (trace_of (manifest cwd)) = []).
Proof.
  assert (Hdir : forall es,
             lookup modules_dir cwd = inr (Dir es) ->
             filter is_freeze (trace_of (manifest cwd)) =
               map (CallFreezeAsMpy "modules")
                   (take_while stdout_encodes (filter is_py (map fst es)))).
  { intros es H. rewrite (manifest_dir cwd es H). cbn [trace_of fst snd filter is_freeze].
    apply freezes_candidates. }
  split; [|split].
  3: { intros e He. apply no_freeze_without_dir. intros es'. rewrite He. discriminate. }
  - intros es H. split; [exact (Hdir es H)|].
    intros Henc. now rewrite (Hdir es H), (take_while_all _ _ Henc).
  - intros p f Hin.
    assert (Hf : In (CallFreezeAsMpy p f)
                    (filter is_freeze (trace_of (manifest cwd))))
      by (apply filter_In; split; [exact Hin | reflexivity]).
    destruct (scan_cases cwd) as [(es & Hl & Hs) | [(t & Hs & Ht) | (e & t & Hs & Ht)]].
    + rewrite (Hdir es Hl) in Hf. apply in_map_iff in Hf.
      destruct Hf as (f' & Heq & Hf'). inversion Heq; subst.
      apply take_while_incl in Hf'. destruct Hf' as [Hf' _].
      destruct (in_filter_is_py _ _ Hf') as (Hpy & n & Hn).
      split; [reflexivity|]. exists es, n. repeat split; auto.
      now apply endswith_spec.
    + rewrite (manifest_scan_ret cwd _ (f_equal outcome_of Hs)), Hs in Hf.
      destruct Ht as [-> | ->]; cbn in Hf; contradiction.
    + rewrite (manifest_scan_raise cwd _ (f_equal outcome_of Hs)), Hs in Hf.
      destruct Ht as [-> | ->]; cbn in Hf; contradiction.
Qed.

Lemma C6_immediate_children_witness :
  lookup modules_dir package_tree =
    inr (Dir [("pkg.py", Dir [("inner.py", File "x = 1")]); ("hub.py", File "y = 2")]) /\
  In (CallFreezeAsMpy "modules" "hub.py") (trace_of (manifest package_tree)) /\
  filter is_freeze (trace_of (manifest package_tree)) =
    [CallFreezeAsMpy "modules" "pkg.py"; CallFreezeAsMpy "modules" "hub.py"] /\
  (exists es n, lookup modules_dir package_tree = inr (Dir es) /\ In ("hub.py", n) es /\
                exists base, "hub.py" = (base ++ ".py")%string).
Proof.
  assert (Hin : In (CallFreezeAsMpy "modules" "hub.py")
                   (trace_of (manifest package_tree))).
  { vm_compute. do 8 right. now left. }
  split; [reflexivity|]. split; [exact Hin|].
  destruct (C6_immediate_children package_tree) as (H1 & H2 & _).
  split; [exact (proj2 (H1 _ eq_refl) eq_refl) | exact (proj2 (H2 _ _ Hin))].
Defined.

(** C7: over a directory [./modules] holding exactly the files [a.py] and
    [b.py], in whichever order the enumeration gives them, the run
    completes; its calls are the include of ["./modules/uasyncio"] first,
    then [freeze_as_mpy "modules" n] for the two names [n] in enumeration
    order. *)
Theorem C7_a_and_b (cwd : node) (es : list (string * node)) (ca cb : string) :
  lookup modules_dir cwd = inr (Dir es) ->
  Permutation [("a.py", File ca); ("b.py", File cb)] es ->
  outcome_of (manifest cwd) = Ret tt /\
  calls (trace_of (manifest cwd)) =
    CallInclude "./modules/uasyncio" ::
      map (CallFreezeAsMpy "modules") (map fst es) /\
  (map fst es = ["a.py"; "b.py"] \/ map fst es = ["b.py"; "a.py"]).
Proof.
  intros H HP. rewrite (manifest_dir cwd es H).
  apply Permutation_length_2_inv in HP.
  destruct HP as [-> | ->];
    (split; [reflexivity | split; [reflexivity | (left; reflexivity) || (right; reflexivity)]]).
Qed.

Lemma C7_a_and_b_witness :
  lookup modules_dir a_b_tree =
    inr (Dir [("a.py", File "import a"); ("b.py", File "import b")]) /\
  calls (trace_of (manifest a_b_tree)) =
    [CallInclude "./modules/uasyncio";
     CallFreezeAsMpy "modules" "a.py"; CallFreezeAsMpy "modules" "b.py"].
Proof.
  split; [reflexivity|].
  exact (proj1 (proj2 (C7_a_and_b a_b_tree _ "import a" "import b" eq_refl
                         (Permutation_refl _)))).
Defined.

(** C8: a run leaves the filesystem as it found it; the only operating
    system calls in its trace are the examination and the listing of
    [modules]; and its outcome and trace are the same over any other
    filesystem that answers these two calls alike, whatever the contents of
    the files and of the rest of the tree. *)
Theorem C8_filesystem_frame (cwd cwd' : node) :
  fs_of (manifest cwd) = cwd /\
  (filter is_sys (trace_of (manifest cwd)) = [SysStat "modules"] \/
   filter is_sys (trace_of (manifest cwd)) =
     [SysStat "modules"; SysScandir "modules"]) /\
  (stat_of cwd modules_dir = stat_of cwd' modules_dir ->
   scandir_of cwd modules_dir = scandir_of cwd' modules_dir ->
   outcome_of (manifest cwd') = outcome_of (manifest cwd) /\
   trace_of (manifest cwd') = trace_of (manifest cwd)).
Proof.
  split; [apply manifest_fs|]. split.
  - destruct (outcome_of (scan cwd)) as [ms|x] eqn:H.
    + rewrite (manifest_scan_ret cwd ms H). cbn.
      rewrite filter_app, sys_module_events, app_nil_r.
      destruct (scan_trace_head cwd) as (t & -> & [-> | ->]); cbn; auto.
    + rewrite (manifest_scan_raise cwd x H). cbn.
      destruct (scan_trace_head cwd) as (t & -> & [-> | ->]); cbn; auto.
  - intros H1 H2. destruct (scan_depends cwd cwd' H1 H2) as [Ho Ht].
    destruct (outcome_of (scan cwd)) as [ms|x] eqn:H.
    + rewrite (manifest_scan_ret cwd ms H), (manifest_scan_ret cwd' ms Ho), Ht.
      split; reflexivity.
    + rewrite (manifest_scan_raise cwd x H), (manifest_scan_raise cwd' x Ho), Ht.
      split; reflexivity.
Qed.

Lemma C8_filesystem_frame_witness :
  stat_of a_b_tree modules_dir = stat_of other_contents_tree modules_dir /\
  scandir_of a_b_tree modules_dir = scandir_of other_contents_tree modules_dir /\
  trace_of (manifest other_contents_tree) = trace_of (manifest a_b_tree) /\
  fs_of (manifest a_b_tree) = a_b_tree.
Proof.
  split; [reflexivity|]. split; [reflexivity|].
  destruct (C8_filesystem_frame a_b_tree other_contents_tree) as (Hfs & _ & H).
  split; [exact (proj2 (H eq_refl eq_refl)) | exact Hfs].
Defined.

(** C9: the guard [if any(modules)] changes nothing: on every list of
    candidates the guarded loop is the loop, and on every filesystem the
    manifest gives the outcome, the trace and the filesystem of the script
    without the guard. *)
Theorem C9_guard_redundant (cwd : node) (modules : list Path) :
  freeze_modules modules cwd = for_in modules register_module cwd /\
  manifest cwd = manifest_unguarded cwd.
Proof.
  split; [apply freeze_modules_for_in|].
  unfold manifest, manifest_unguarded, bind.
  destruct (include "./modules/uasyncio" cwd) as [[[[]|x] t0] fs0]; [|reflexivity].
  destruct (glob (PurePath "./modules") "*.py" fs0) as [[[ms|x] t1] fs1];
    [|reflexivity].
  now rewrite freeze_modules_for_in.
Qed.

(** C10, as stated, fails: the scan returns three candidates, the second
    with a name that standard output cannot encode; only the two lines of
    the first candidate are printed. *)
Lemma C10_diagnostic_lines_counterexample :
  outcome_of (scan ff_tree) =
    Ret [["modules"; "a.py"]; ["modules"; ff_py]; ["modules"; "b.py"]] /\
  filter is_stdout (trace_of (manifest ff_tree)) =
    [Stdout "INCLUDING modules/a.py as a module."; Stdout "Including a as a module."] /\
  ~ two_lines_per_candidate ff_tree.
Proof.
  split; [reflexivity|]. split; [reflexivity|].
  intros H. specialize (H _ eq_refl). vm_compute in H. discriminate H.
Qed.

(** C10, amended: when the scan returns the candidates [ms], the trace
    after the include and the scan is, for each candidate in order up to the
    first whose line cannot be printed, the line
    ["INCLUDING <path> as a module."], the line
    ["Including <stem> as a module."] and then its [freeze_as_mpy] call;
    these are all the lines printed, so none is printed without a candidate.
    When every line can be printed the run completes with the two lines of
    every candidate; otherwise it ends with the [UnicodeEncodeError] of the
    first line that cannot be printed, and nothing is printed for that
    candidate.  The stem of [base.py] is [base]. *)
Theorem C10_diagnostic_lines (cwd : node) (ms : list Path) :
  outcome_of (scan cwd) = Ret ms ->
  trace_of (manifest cwd) =
    (CallInclude "./modules/uasyncio" :: trace_of (scan cwd) ++
       flat_map (fun m => diagnostics m ++ [CallFreezeAsMpy "modules" (name m)])
                (take_while printable ms))%list /\
  filter is_stdout (trace_of (manifest cwd)) =
    flat_map diagnostics (take_while printable ms) /\
  (forallb printable ms = true ->
     outcome_of (manifest cwd) = Ret tt /\
     filter is_stdout (trace_of (manifest cwd)) = flat_map diagnostics ms) /\
  (forallb printable ms = false ->
     exists m, In m ms /\ printable m = false /\
       outcome_of (manifest cwd) =
         Raise (UnicodeEncodeError ("INCLUDING " ++ str m ++ " as a module."))) /\
  (ms = [] -> filter is_stdout (trace_of (manifest cwd)) = []) /\
  (forall base, base <> "" -> stem (candidate (base ++ ".py")) = base).
Proof.
  intros H. destruct (scan_candidates cwd ms H) as [names ->].
  rewrite (manifest_scan_ret cwd _ H). cbn [trace_of outcome_of fst snd].
  assert (Hout : filter is_stdout
                   (CallInclude "./modules/uasyncio" :: trace_of (scan cwd) ++
                      flat_map module_events
                        (take_while printable (map candidate names)))%list
                 = flat_map diagnostics (take_while printable (map candidate names))).
  { cbn [filter is_stdout]. rewrite filter_app, stdout_module_events.
    rewrite scan_trace_stdout. reflexivity. }
  split; [now rewrite printed_candidates, module_events_candidates|].
  split; [exact Hout|]. split; [|split; [|split]].
  - intros Hall. split; [now apply loop_outcome_all|].
    now rewrite Hout, (take_while_all _ _ Hall).
  - intros Hall. destruct (loop_outcome_stop _ Hall) as (m & Hin & Hp & Ho). eauto.
  - intros Hnil. rewrite Hout, Hnil. reflexivity.
  - intros base Hb. apply stem_py, Hb.
Qed.

Lemma C10_diagnostic_lines_witness :
  outcome_of (scan a_b_tree) = Ret [["modules"; "a.py"]; ["modules"; "b.py"]] /\
  filter is_stdout (trace_of (manifest a_b_tree)) =
    [Stdout "INCLUDING modules/a.py as a module."; Stdout "Including a as a module.";
     Stdout "INCLUDING modules/b.py as a module."; Stdout "Including b as a module."].
Proof.
  split; [reflexivity|].
  exact (proj1 (proj2 (C10_diagnostic_lines a_b_tree
                         [["modules"; "a.py"]; ["modules"; "b.py"]] eq_refl))).
Defined.

(** * Further properties of the script *)

Section Further.

Lemma length_diagnostics ms :
  List.length (flat_map diagnostics ms) = (2 * List.length ms)%nat.
Proof. induction ms as [|m ms IH]; simpl; [reflexivity | rewrite IH; lia]. Qed.

Lemma manifest_outcome_cases cwd :
  (exists ms, outcome_of (scan cwd) = Ret ms /\
              outcome_of (manifest cwd) = loop_outcome ms) \/
  (exists e, outcome_of (scan cwd) = Raise (OSError e) /\
             outcome_of (manifest cwd) = Raise (OSError e)).
Proof.
  destruct (scan_cases cwd) as [(es & _ & Hs) | [(t & Hs & _) | (e & t & Hs & _)]];
    pose proof (f_equal outcome_of Hs) as Ho; cbn in Ho.
  - left. eexists. split; [exact Ho|]. now rewrite (manifest_scan_ret cwd _ Ho).
  - left. eexists. split; [exact Ho|]. now rewrite (manifest_scan_ret cwd _ Ho).
  - right. exists e. split; [exact Ho|]. now rewrite (manifest_scan_raise cwd _ Ho).
Qed.

Lemma NoDup_take_while {A : Type} (f : A -> bool) l :
  NoDup l -> NoDup (take_while f l).
Proof.
  induction 1 as [|x l Hx _ IH]; cbn; [constructor|].
  destruct (f x); constructor; [|exact IH].
  intros Hin. apply take_while_incl in Hin. tauto.
Qed.

Lemma loop_outcome_app a b :
  loop_outcome (a ++ b) =
  if forallb printable a then loop_outcome b else loop_outcome a.
Proof.
  induction a as [|m a IH]; [reflexivity|]. cbn.
  destruct (printable m); [exact IH | reflexivity].
Qed.

Lemma split_no_sep c rest :
  no_sep c ->
  PyStr.split "/" (c ++ String "/" rest)%string = c :: PyStr.split "/" rest.
Proof.
  induction c as [|x c IH]; intros H.
  - reflexivity.
  - destruct H as [Hx Hc]. cbn [append PyStr.split].
    apply Ascii.eqb_neq in Hx. rewrite Hx, (IH Hc). reflexivity.
Qed.

Lemma split_no_sep_last c :
  no_sep c -> PyStr.split "/" c = [c].
Proof.
  induction c as [|x c IH]; intros H.
  - reflexivity.
  - destruct H as [Hx Hc]. cbn [PyStr.split].
    apply Ascii.eqb_neq in Hx. rewrite Hx, (IH Hc). reflexivity.
Qed.

Lemma split_concat c p :
  Forall no_sep (c :: p) ->
  PyStr.split "/" (String.concat "/" (c :: p)) = c :: p.
Proof.
  revert c. induction p as [|d p IH]; intros c H.
  - apply split_no_sep_last. now inversion H.
  - inversion H as [|? ? Hc Hp]; subst.
    change (String.concat "/" (c :: d :: p))
      with (c ++ String "/" (String.concat "/" (d :: p)))%string.
    rewrite (split_no_sep c _ Hc), (IH d Hp). reflexivity.
Qed.

Lemma filter_components p :
  Forall component p ->
  filter (fun x => negb (String.eqb x "") && negb (String.eqb x ".")) p = p.
Proof.
  induction 1 as [|c p (H1 & H2 & _) _ IH]; [reflexivity|].
  cbn [filter]. apply String.eqb_neq in H1, H2. rewrite H1, H2, IH. reflexivity.
Qed.

End Further.

(** X1: a run of the manifest ends normally, with the operating system
    error of the scan, or with the error of a print whose line could not be
    encoded; it never ends with the error of the unpacking, because the
    scan only returns paths of two components. *)
Theorem X1_never_unpacking_error (cwd : node) :
  (outcome_of (manifest cwd) = Ret tt \/
   (exists e, outcome_of (manifest cwd) = Raise (OSError e)) \/
   (exists line, outcome_of (manifest cwd) = Raise (UnicodeEncodeError line))) /\
  (forall msg, outcome_of (manifest cwd) <> Raise (ValueError msg)).
Proof.
  destruct (manifest_outcome_cases cwd) as [(ms & _ & ->) | (e & _ & ->)].
  - destruct (loop_outcome_cases ms) as [-> | [line ->]].
    + split; [now left | discriminate].
    + split; [right; right; now exists line | discriminate].
  - split; [right; left; now exists e | discriminate].
Qed.

(** X2: when [./modules] does not resolve to a directory that can be
    listed (it is missing, a regular file, or refused by the operating
    system), no [freeze_as_mpy] call is made and no line is printed: the
    calls of the run are the include alone. *)
Theorem X2_nothing_without_directory (cwd : node) :
  (forall es, lookup modules_dir cwd <> inr (Dir es)) ->
  calls (trace_of (manifest cwd)) = [CallInclude "./modules/uasyncio"] /\
  filter is_stdout (trace_of (manifest cwd)) = [].
Proof.
  intros Hno.
  destruct (scan_cases cwd) as [(es & Hl & _) | [(t & Hs & Ht) | (e & t & Hs & Ht)]].
  - now elim (Hno es).
  - rewrite (manifest_scan_ret cwd _ (f_equal outcome_of Hs)), Hs.
    destruct Ht as [-> | ->]; split; reflexivity.
  - rewrite (manifest_scan_raise cwd _ (f_equal outcome_of Hs)), Hs.
    destruct Ht as [-> | ->]; split; reflexivity.
Qed.

Lemma X2_nothing_without_directory_witness :
  (forall es, lookup modules_dir modules_file_tree <> inr (Dir es)) /\
  calls (trace_of (manifest modules_file_tree)) = [CallInclude "./modules/uasyncio"].
Proof.
  assert (H : forall es, lookup modules_dir modules_file_tree <> inr (Dir es))
    by (intros es; discriminate).
  split; [exact H | exact (proj1 (X2_nothing_without_directory modules_file_tree H))].
Defined.

(** X3: the pattern of the scan accepts exactly the names that end in
    [".py"]: hidden names and the bare name [".py"] included, longer
    extensions such as [".pyc"] excluded. *)
Theorem X3_pattern_is_suffix (n : string) :
  compile_pattern "*.py" n = true <-> exists pre, n = (pre ++ ".py")%string.
Proof. rewrite compile_pattern_py. apply endswith_spec. Qed.

Lemma X3_pattern_is_suffix_witness :
  compile_pattern "*.py" ".hidden.py" = true.
Proof. apply (proj2 (X3_pattern_is_suffix ".hidden.py")). now exists ".hidden". Defined.

(** X4: for a matched name other than [".py"] the stem printed in the
    second line, followed by [".py"], gives the name back; the name [".py"]
    has no suffix for [pathlib] and is its own stem. *)
Theorem X4_stem_of_match (n : string) :
  compile_pattern "*.py" n = true ->
  (n = ".py" /\ stem (candidate n) = ".py") \/
  (n <> ".py" /\ (stem (candidate n) ++ ".py")%string = n).
Proof.
  rewrite compile_pattern_py. intros H. apply endswith_spec in H.
  destruct H as [pre ->]. destruct pre as [|c pre].
  - left. split; reflexivity.
  - right. split.
    + intros Heq. apply (f_equal String.length) in Heq.
      rewrite length_app in Heq. simpl in Heq. lia.
    + unfold candidate. rewrite stem_py; [reflexivity | discriminate].
Qed.

Lemma X4_stem_of_match_witness :
  compile_pattern "*.py" "pybricks.hubs.py" = true /\
  (stem (candidate "pybricks.hubs.py") ++ ".py")%string = "pybricks.hubs.py".
Proof.
  split; [reflexivity|].
  destruct (X4_stem_of_match "pybricks.hubs.py" eq_refl) as [[H _] | [_ H]];
    [discriminate H | exact H].
Defined.

(** X5: in every run, whatever the filesystem, the number of lines printed
    is twice the number of [freeze_as_mpy] calls. *)
Theorem X5_two_lines_per_call (cwd : node) :
  List.length (filter is_stdout (trace_of (manifest cwd))) =
  (2 * List.length (filter is_freeze (trace_of (manifest cwd))))%nat.
Proof.
  destruct (outcome_of (scan cwd)) as [ms|x] eqn:H.
  - rewrite (manifest_scan_ret cwd ms H). cbn [trace_of fst snd filter is_stdout is_freeze].
    rewrite !filter_app, stdout_module_events, freezes_module_events.
    rewrite scan_trace_stdout.
    destruct (scan_trace_head cwd) as (t & -> & [-> | ->]); cbn [filter is_freeze app];
      now rewrite length_diagnostics, length_map.
  - rewrite (manifest_scan_raise cwd x H). cbn [trace_of fst snd filter is_stdout is_freeze].
    rewrite scan_trace_stdout.
    destruct (scan_trace_head cwd) as (t & -> & [-> | ->]); reflexivity.
Qed.

(** X6: over a directory [./modules] whose entry names are distinct, no
    [freeze_as_mpy] call is made twice; and when standard output can encode
    every matching name, every entry whose name matches the pattern is
    registered. *)
Theorem X6_registered_once (cwd : node) (es : list (string * node)) :
  lookup modules_dir cwd = inr (Dir es) ->
  NoDup (map fst es) ->
  NoDup (filter is_freeze (trace_of (manifest cwd))) /\
  (forallb stdout_encodes (filter (compile_pattern "*.py") (map fst es)) = true ->
   forall f, In f (map fst es) -> compile_pattern "*.py" f = true ->
             In (CallFreezeAsMpy "modules" f) (trace_of (manifest cwd))).
Proof.
  intros H Hnd.
  assert (Hf : filter is_freeze (trace_of (manifest cwd)) =
               map (CallFreezeAsMpy "modules")
                   (take_while stdout_encodes (filter is_py (map fst es)))).
  { rewrite (manifest_dir cwd es H). cbn [trace_of fst snd filter is_freeze].
    apply freezes_candidates. }
  split.
  - rewrite Hf. apply Finite.Injective_map_NoDup.
    + intros a b Hab. now inversion Hab.
    + apply NoDup_take_while. now apply NoDup_filter.
  - rewrite (filter_ext _ _ compile_pattern_py). fold is_py.
    intros Henc f Hin Hm. rewrite compile_pattern_py in Hm.
    assert (Hin' : In (CallFreezeAsMpy "modules" f)
                      (filter is_freeze (trace_of (manifest cwd)))).
    { rewrite Hf, (take_while_all _ _ Henc). apply in_map. apply filter_In. now split. }
    apply filter_In in Hin'. tauto.
Qed.

Lemma X6_registered_once_witness :
  NoDup (map fst [("notes.txt", File "todo"); ("a.py", File "import a");
                  ("uasyncio", Dir []); ("b.py", File "import b")]) /\
  NoDup (filter is_freeze (trace_of (manifest notes_tree))) /\
  In (CallFreezeAsMpy "modules" "b.py") (trace_of (manifest notes_tree)).
Proof.
  assert (Hnd : NoDup (map fst [("notes.txt", File "todo"); ("a.py", File "import a");
                                ("uasyncio", Dir []); ("b.py", File "import b")])).
  { cbn. repeat constructor; cbn; intuition discriminate. }
  destruct (X6_registered_once notes_tree _ eq_refl Hnd) as [H1 H2].
  split; [exact Hnd|]. split; [exact H1|].
  apply (H2 eq_refl); [cbn; tauto | reflexivity].
Defined.

(** X7: the run depends on the entries of [./modules] only through the
    names that match the pattern, in their order: two directories with the
    same matching names give the same outcome and the same trace, whatever
    other entries they hold. *)
Theorem X7_only_matches_matter (cwd cwd' : node) (es es' : list (string * node)) :
  lookup modules_dir cwd = inr (Dir es) ->
  lookup modules_dir cwd' = inr (Dir es') ->
  filter (compile_pattern "*.py") (map fst es) =
    filter (compile_pattern "*.py") (map fst es') ->
  outcome_of (manifest cwd') = outcome_of (manifest cwd) /\
  trace_of (manifest cwd') = trace_of (manifest cwd).
Proof.
  intros H H' Heq.
  rewrite !(filter_ext _ _ compile_pattern_py) in Heq. fold is_py in Heq.
  rewrite (manifest_dir cwd es H), (manifest_dir cwd' es' H'), Heq.
  split; reflexivity.
Qed.

Lemma X7_only_matches_matter_witness :
  filter (compile_pattern "*.py") ["a.py"; "b.py"] =
    filter (compile_pattern "*.py") ["notes.txt"; "a.py"; "uasyncio"; "b.py"] /\
  trace_of (manifest notes_tree) = trace_of (manifest a_b_tree).
Proof.
  split; [reflexivity|].
  exact (proj2 (X7_only_matches_matter a_b_tree notes_tree _ _ eq_refl eq_refl eq_refl)).
Defined.

(** X8: registration follows the enumeration: over a directory whose
    entries are [es1] followed by [es2], when the run over [es1] completes
    the [freeze_as_mpy] calls and the printed lines are those of the run over
    [es1] followed by those of the run over [es2], and the run ends as the
    run over [es2] does; when the run over [es1] ends with an error, the run
    over [es1] followed by [es2] is the same run. *)
Theorem X8_entries_append (cwd1 cwd2 cwd : node) (es1 es2 : list (string * node)) :
  lookup modules_dir cwd1 = inr (Dir es1) ->
  lookup modules_dir cwd2 = inr (Dir es2) ->
  lookup modules_dir cwd = inr (Dir (es1 ++ es2)) ->
  (outcome_of (manifest cwd1) = Ret tt ->
     outcome_of (manifest cwd) = outcome_of (manifest cwd2) /\
     filter is_freeze (trace_of (manifest cwd)) =
       (filter is_freeze (trace_of (manifest cwd1)) ++
        filter is_freeze (trace_of (manifest cwd2)))%list /\
     filter is_stdout (trace_of (manifest cwd)) =
       (filter is_stdout (trace_of (manifest cwd1)) ++
        filter is_stdout (trace_of (manifest cwd2)))%list) /\
  (outcome_of (manifest cwd1) <> Ret tt ->
     outcome_of (manifest cwd) = outcome_of (manifest cwd1) /\
     trace_of (manifest cwd) = trace_of (manifest cwd1)).
Proof.
  intros H1 H2 H.
  rewrite (manifest_dir cwd1 es1 H1), (manifest_dir cwd2 es2 H2),
    (manifest_dir cwd _ H).
  cbn [outcome_of trace_of fst snd filter is_freeze is_stdout].
  rewrite !freezes_candidates, !stdout_module_events.
  rewrite !map_app, !filter_app, !map_app, loop_outcome_app, take_while_app.
  rewrite forallb_printable_candidates.
  destruct (forallb stdout_encodes (filter is_py (map fst es1))) eqn:Henc.
  - split; [|intros Hne; elim Hne; apply loop_outcome_all;
             now rewrite forallb_printable_candidates].
    intros _. rewrite (take_while_all _ _ Henc), !map_app, flat_map_app.
    repeat split; reflexivity.
  - split; [|intros _; split; reflexivity].
    intros Hret. apply loop_outcome_ret in Hret.
    rewrite forallb_printable_candidates in Hret. congruence.
Qed.

Lemma X8_entries_append_witness :
  lookup modules_dir joined_tree =
    inr (Dir ([("a.py", File "import a"); ("b.py", File "import b")] ++
              [("pkg.py", Dir [("inner.py", File "x = 1")]); ("hub.py", File "y = 2")])) /\
  outcome_of (manifest a_b_tree) = Ret tt /\
  filter is_freeze (trace_of (manifest joined_tree)) =
    [CallFreezeAsMpy "modules" "a.py"; CallFreezeAsMpy "modules" "b.py";
     CallFreezeAsMpy "modules" "pkg.py"; CallFreezeAsMpy "modules" "hub.py"].
Proof.
  split; [reflexivity|]. split; [reflexivity|].
  exact (proj1 (proj2 (proj1 (X8_entries_append a_b_tree package_tree joined_tree _ _
                                 eq_refl eq_refl eq_refl) eq_refl))).
Defined.

(** X9: a relative path is recovered from its string: parsing [str p] gives
    [p] back when every component of [p] is a proper entry name; the empty
    path prints as ["."], which parses to the empty path. *)
Theorem X9_path_of_str (p : Path) :
  Forall component p -> PurePath (str p) = p.
Proof.
  intros H. destruct p as [|c p]; [reflexivity|].
  unfold PurePath, parse_parts, str.
  rewrite split_concat.
  - now apply filter_components.
  - eapply Forall_impl; [|exact H]. intros a (_ & _ & Ha). exact Ha.
Qed.

Lemma X9_path_of_str_witness :
  Forall component ["modules"; "hub.py"] /\
  PurePath (str ["modules"; "hub.py"]) = ["modules"; "hub.py"].
Proof.
  assert (H : Forall component ["modules"; "hub.py"]).
  { repeat constructor; cbn; try discriminate. }
  split; [exact H | exact (X9_path_of_str _ H)].
Defined.

(** X10: on any list of paths the guarded loop completes exactly when
    every path has two components and every first line can be printed;
    otherwise it ends with the [ValueError] of the unpacking or with the
    [UnicodeEncodeError] of a print, never with another error; either way it
    leaves the filesystem untouched. *)
Theorem X10_loop_completes_iff (ms : list Path) (fs : node) :
  (outcome_of (freeze_modules ms fs) = Ret tt <->
   Forall two_parts ms /\ forallb printable ms = true) /\
  (outcome_of (freeze_modules ms fs) = Ret tt \/
   (exists msg, outcome_of (freeze_modules ms fs) = Raise (ValueError msg)) \/
   (exists line, outcome_of (freeze_modules ms fs) = Raise (UnicodeEncodeError line))) /\
  fs_of (freeze_modules ms fs) = fs.
Proof.
  rewrite freeze_modules_for_in.
  induction ms as [|m ms (IH1 & IH2 & IH3)].
  - cbn. repeat split; auto.
  - cbn [for_in forallb]. unfold bind. destruct (printable m) eqn:Hp.
    + destruct (Nat.eq_dec (List.length (parts m)) 2) as [Hm | Hm].
      * rewrite (register_module_ok fs m Hm Hp).
        destruct (for_in ms register_module fs) as [[r t] fs'].
        cbn in IH1, IH2, IH3 |- *. split; [|split; assumption].
        split.
        -- intros Hr. destruct (proj1 IH1 Hr) as [HF Hall].
           split; [constructor; [exact Hm | exact HF] | exact Hall].
        -- intros [HF Hall]. inversion HF; subst. apply IH1. now split.
      * destruct (register_module_raise fs m Hm Hp) as [msg ->]. cbn.
        split; [|split; eauto].
        split; [discriminate|]. intros [HF _]. inversion HF; subst. contradiction.
    + rewrite (register_module_unprintable fs m Hp). cbn.
      split; [|split; eauto].
      split; [discriminate|]. intros [_ Hx]. discriminate Hx.
Qed.

Lemma X10_loop_completes_iff_witness :
  Forall two_parts [["modules"; "a.py"]; ["lib"; "b.py"]] /\
  forallb printable [["modules"; "a.py"]; ["lib"; "b.py"]] = true /\
  outcome_of (freeze_modules [["modules"; "a.py"]; ["lib"; "b.py"]] empty_tree) = Ret tt.
Proof.
  assert (H : Forall two_parts [["modules"; "a.py"]; ["lib"; "b.py"]])
    by (repeat constructor).
  split; [exact H|]. split; [reflexivity|].
  exact (proj2 (proj1 (X10_loop_completes_iff _ empty_tree)) (conj H eq_refl)).
Defined.
